(** * Exploratory data analysis scripts: eda_simple.py and eda_complete_dataset.py

    A shallow embedding of the two scripts under [src/eda/] and the
    properties their specification states about them.

    Modelling conventions.
    - Python [str] values are [string]s over 8-bit [ascii]; the character
      classes ([\w], whitespace, upper case) are those of the ASCII range,
      a code above 127 is in none of them.
    - A pandas column of dtype object is a list of cells, a cell being a
      [str] or the missing value NaN ([option string]); a numeric column is a
      list of [option Z].
    - A [collections.Counter] is an association list in insertion order
      (Python dictionaries keep insertion order).
    - Floating point results (mean, percentage) are exact rationals; NaN is
      [None].  Standard deviation, quantiles and correlation are not modelled.
    - Exceptions are values of type [exn]; a function that prints or can
      raise is a computation of the monad [Run.M], which threads the console
      and returns a value or an exception.
    - The rule lines ([print("=" * 60)], [print("-" * 40)]) and the blank
      lines of the console are left out.
    - What matplotlib, seaborn and wordcloud do is outside the model: a call
      into them returns or raises as the environment of the run says. *)

From Stdlib Require Import Ascii String QArith.
From stdpp Require Import gmap strings list fin_maps sorting pretty.

Open Scope string_scope.
Open Scope list_scope.
Open Scope nat_scope.

(** ** Characters and strings *)

Module Text.

Definition code (c : ascii) : N := N_of_ascii c.

Definition between (lo hi n : N) : bool := ((lo <=? n) && (n <=? hi))%N.

(** [\w] of the [re] module: letters, digits and the underscore. *)
Definition is_word (c : ascii) : bool :=
  between 48 57 (code c) || between 65 90 (code c)
  || (code c =? 95)%N || between 97 122 (code c).

(** [str.isspace]: the separators of [str.split()] without argument. *)
Definition is_space (c : ascii) : bool :=
  between 9 13 (code c) || between 28 32 (code c).

Definition lower_char (c : ascii) : ascii :=
  if between 65 90 (code c) then ascii_of_N (code c + 32) else c.

(** [str.lower()] *)
Fixpoint lower (s : string) : string :=
  match s with
  | EmptyString => EmptyString
  | String c s' => String (lower_char c) (lower s')
  end.

(** [len(s)] *)
Definition len (s : string) : nat := String.length s.

Definition emit (cur : string) : list string :=
  match cur with EmptyString => [] | _ => [cur] end.

(** The maximal runs of characters satisfying [p], left to right; [cur] is
    the run being read. *)
Fixpoint runs_from (p : ascii → bool) (cur : string) (s : string)
  : list string :=
  match s with
  | EmptyString => emit cur
  | String c s' =>
      if p c then runs_from p (cur +:+ String c EmptyString) s'
      else emit cur ++ runs_from p EmptyString s'
  end.

Definition runs (p : ascii → bool) (s : string) : list string :=
  runs_from p EmptyString s.

(** [re.findall(r'\b\w+\b', s)]: a match starts at a word boundary, takes
    word characters greedily and ends at a word boundary, so the matches
    are the maximal runs of word characters. *)
Definition findall_words (s : string) : list string := runs is_word s.

(** [s.split()] *)
Definition split (s : string) : list string :=
  runs (λ c, negb (is_space c)) s.

(** [sep.join(l)] *)
Fixpoint join (sep : string) (l : list string) : string :=
  match l with
  | [] => EmptyString
  | [x] => x
  | x :: l' => x +:+ sep +:+ join sep l'
  end.

(** Every character of [s] satisfies [P]. *)
Fixpoint all_chars (P : ascii → bool) (s : string) : bool :=
  match s with
  | EmptyString => true
  | String c s' => P c && all_chars P s'
  end.

End Text.

(** ** collections.Counter *)

Module Counter.
Section Counter.
Context {K : Type} `{EqDecision K}.

(** Items in insertion order. *)
Definition t : Type := list (K * nat).

(** [c[k] += 1]: an existing key keeps its place, a new key goes last. *)
Fixpoint incr (k : K) (c : t) : t :=
  match c with
  | [] => [(k, 1)]
  | (k', n) :: c' =>
      if decide (k' = k) then (k', S n) :: c' else (k', n) :: incr k c'
  end.

(** [Counter(iterable)] *)
Definition of_list (l : list K) : t := foldl (λ c k, incr k c) [] l.

(** [c[k]], zero for a key that is absent. *)
Fixpoint get (c : t) (k : K) : nat :=
  match c with
  | [] => 0
  | (k', n) :: c' => if decide (k' = k) then n else get c' k
  end.

Definition keys (c : t) : list K := c.*1.

(** [sorted(items, key=itemgetter(1), reverse=True)]: the sort is stable,
    so an item goes after the items of greater count and before those of
    equal or smaller count that followed it. *)
Fixpoint insert_desc (x : K * nat) (l : t) : t :=
  match l with
  | [] => [x]
  | y :: l' => if x.2 <? y.2 then y :: insert_desc x l' else x :: l
  end.

Definition sorted_desc (c : t) : t := foldr insert_desc [] c.

(** [c.most_common(n)] is [heapq.nlargest(n, items, key=count)], that is
    [sorted(items, key=count, reverse=True)[:n]]. *)
Definition most_common (n : nat) (c : t) : t := take n (sorted_desc c).

Definition total (c : t) : nat := sum_list (c.*2).

End Counter.
End Counter.

(** ** The part of pandas the scripts use *)

Module Pandas.

(** The value of a cell that is present. *)
Inductive scalar := Str (s : string) | Int (z : Z).

#[export] Instance scalar_eq_dec : EqDecision scalar.
Proof. solve_decision. Defined.

(** A column by dtype: object (text or NaN) or numeric (number or NaN). *)
Inductive column :=
| ObjectCol (cells : list (option string))
| NumCol (cells : list (option Z)).

#[export] Instance column_eq_dec : EqDecision column.
Proof. solve_decision. Defined.

Definition cells (c : column) : list (option scalar) :=
  match c with
  | ObjectCol l => (λ x : option string, Str <$> x) <$> l
  | NumCol l => (λ x : option Z, Int <$> x) <$> l
  end.

(** A frame: the length of its index and its columns by name. *)
Record DataFrame := Frame {
  nrows : nat;
  columns : gmap string column
}.

(** Every column is as long as the index. *)
Definition wf (df : DataFrame) : Prop :=
  ∀ k c, columns df !! k = Some c → length (cells c) = nrows df.

(** [df[k] = c] *)
Definition set_column (k : string) (c : column) (df : DataFrame)
  : DataFrame :=
  Frame (nrows df) (<[k := c]> (columns df)).

(** [s.dropna()] as the list of the values present. *)
Definition present {A} (l : list (option A)) : list A := omap id l.

(** [s.isnull().sum()] *)
Definition isnull_sum (c : column) : nat :=
  length (filter (λ x, x = None) (cells c)).

(** [s.value_counts()]: NaN is dropped, the counts are sorted in
    descending order (among equal counts the model keeps first-seen
    order). *)
Definition value_counts (c : column) : Counter.t (K := scalar) :=
  Counter.sorted_desc (Counter.of_list (present (cells c))).

(** [s.nunique()]: the number of distinct values, NaN apart. *)
Definition nunique (c : column) : nat :=
  length (Counter.of_list (present (cells c))).

(** [s.str.len()] *)
Definition str_len (l : list (option string)) : list (option Z) :=
  (λ x : option string, (λ s : string, Z.of_nat (Text.len s)) <$> x) <$> l.

(** [s.str.split().str.len()] *)
Definition str_split_len (l : list (option string)) : list (option Z) :=
  (λ x : option string,
     (λ s : string, Z.of_nat (length (Text.split s))) <$> x) <$> l.

(** The text [astype(str)] gives a number: the decimal numeral in an
    integer column; a column with a NaN is float64, where an integral
    value prints with a trailing [.0]. *)
Definition num_repr (float : bool) (z : Z) : string :=
  if float then pretty z +:+ ".0" else pretty z.

(** [s.astype(str)]: NaN becomes the text [nan]. *)
Definition astype_str (c : column) : list string :=
  match c with
  | ObjectCol l => (λ x, default "nan" x) <$> l
  | NumCol l =>
      let float := bool_decide (None ∈ l) in
      (λ x, from_option (num_repr float) "nan" x) <$> l
  end.

(** [s.mean()]: NaN is skipped; NaN when no value is left. *)
Definition mean (l : list (option Z)) : option Q :=
  match present l with
  | [] => None
  | z :: zs => Some (Qmake (foldr Z.add 0%Z (z :: zs))
                           (Pos.of_nat (length (z :: zs))))
  end.

(** [s.min()], [s.max()] *)
Definition smin (l : list (option Z)) : option Z :=
  match present l with
  | [] => None
  | z :: zs => Some (foldr Z.min z zs)
  end.

Definition smax (l : list (option Z)) : option Z :=
  match present l with
  | [] => None
  | z :: zs => Some (foldr Z.max z zs)
  end.

(** Row [i] across the columns. *)
Definition row (df : DataFrame) (i : nat) : gmap string (option scalar) :=
  (λ c, mjoin (cells c !! i)) <$> columns df.

(** [df.duplicated().sum()]: the rows equal to an earlier row. *)
Definition duplicated_sum (df : DataFrame) : nat :=
  length (filter (λ i, Exists (λ j, row df j = row df i) (seq 0 i))
                 (seq 0 (nrows df))).

End Pandas.

(** ** Console output, exceptions and sequencing *)

Module Run.
Import Pandas.

Inductive exn :=
| KeyError (k : string)
| AttributeError (msg : string)
| TypeError (msg : string)
| ZeroDivisionError
| LibraryError (site : string).

(** What a [print] call writes.  A number formatted from a float carries
    the exact value, [None] for NaN. *)
Inductive out :=
| Line (text : string)
| Number (label : string) (n : Z)
| Float (label : string) (x : option Q)
| Counts (label : string) (rows : list (scalar * nat))
| Missing (column : string) (n : nat)
| Entry (word : string) (count : nat)
| Share (key : scalar) (count : nat) (percentage : Q)
| Failure (e : exn)
| Unmodelled (what : string).

(** The functions [main] calls. *)
Inductive fn :=
| Load | TextColumns | Categorical | Pmid | Visualizations
| TextAnalysis | Wordcloud | StatSummary | SummaryReport.

#[export] Instance fn_eq_dec : EqDecision fn.
Proof. solve_decision. Defined.

Inductive event := Enter (f : fn) | Exit (f : fn).

#[export] Instance event_eq_dec : EqDecision event.
Proof. solve_decision. Defined.

Record world := World {
  stdout : list out;
  trace : list event
}.

Definition start : world := World [] [].

(** What the run gets from outside: the frame [pd.read_csv] returns or the
    exception it raises, and for each call into the plotting libraries
    whether it raises. *)
Record Env := {
  read_csv : exn + DataFrame;
  extern : string → option exn
}.

(** A computation writes to the world and returns or raises. *)
Definition M (A : Type) : Type := world → world * (exn + A).

#[export] Instance M_ret : MRet M := λ A a w, (w, inr a).

#[export] Instance M_bind : MBind M := λ A B f m w,
  match m w with
  | (w', inr a) => f a w'
  | (w', inl e) => (w', inl e)
  end.

Definition raise {A} (e : exn) : M A := λ w, (w, inl e).

Definition lift {A} (r : exn + A) : M A := λ w, (w, r).

Definition print (o : out) : M () :=
  λ w, (World (stdout w ++ [o]) (trace w), inr ()).

Definition log (ev : event) : M () :=
  λ w, (World (stdout w) (trace w ++ [ev]), inr ()).

(** [df = f(df)] in [main]: the call is entered, runs, and returns. *)
Definition call {A} (f : fn) (body : M A) : M A :=
  log (Enter f);; a ← body; log (Exit f);; mret a.

(** [try: body except Exception as e: handler(e)] *)
Definition try_except (body : M ()) (handler : exn → M ()) : M () :=
  λ w, match body w with
       | (w', inr tt) => (w', inr tt)
       | (w', inl e) => handler e w'
       end.

(** [for x in l: body(x)] *)
Fixpoint for_each {A} (l : list A) (body : A → M ()) : M () :=
  match l with
  | [] => mret ()
  | x :: l' => body x;; for_each l' body
  end.

(** A call into matplotlib, seaborn or wordcloud. *)
Definition library (env : Env) (site : string) : M () :=
  match extern env site with
  | Some e => raise e
  | None => mret ()
  end.

(** [df[k]] *)
Definition getitem (df : DataFrame) (k : string) : M column :=
  match columns df !! k with
  | Some c => mret c
  | None => raise (KeyError k)
  end.

(** [s.str]: only for a column of dtype object. *)
Definition str (c : column) : M (list (option string)) :=
  match c with
  | ObjectCol l => mret l
  | NumCol _ =>
      raise (AttributeError "Can only use .str accessor with string values!")
  end.

(** The values [s.mean()] works on: those of a numeric column; an object
    column has a mean (NaN) only when it holds no text. *)
Definition numeric (c : column) : M (list (option Z)) :=
  match c with
  | NumCol l => mret l
  | ObjectCol l =>
      if bool_decide (present l = []) then mret ((λ _, None) <$> l)
      else raise (TypeError "Could not convert string to numeric")
  end.

End Run.

(** ** The functions that read the same in both scripts *)

Module Shared.
Import Pandas Run.

Definition derived_columns : list string :=
  ["title_length"; "abstract_length";
   "title_word_count"; "abstract_word_count"].

Definition load_and_examine_data (env : Env) : M DataFrame :=
  print (Line "EXPLORATORY DATA ANALYSIS");;
  print (Line "Dataset: complete_dataset_standardized.csv");;
  df ← lift (read_csv env);
  print (Line "1. BASIC DATASET INFORMATION");;
  print (Unmodelled "Dataset shape");;
  print (Number "Number of rows" (Z.of_nat (nrows df)));;
  print (Number "Number of columns" (Z.of_nat (size (columns df))));;
  print (Line "2. COLUMN INFORMATION");;
  print (Unmodelled "Columns");;
  print (Line "3. DATA TYPES");;
  print (Unmodelled "dtypes");;
  print (Line "4. FIRST FEW ROWS");;
  print (Unmodelled "head");;
  print (Line "5. MISSING VALUES");;
  for_each (map_to_list (columns df))
           (λ kc, print (Missing kc.1 (isnull_sum kc.2)));;
  print (Line "6. DUPLICATE ROWS");;
  print (Number "Number of duplicate rows" (Z.of_nat (duplicated_sum df)));;
  mret df.

Definition analyze_text_columns (df : DataFrame) : M DataFrame :=
  print (Line "7. TEXT ANALYSIS");;
  print (Line "TITLE ANALYSIS:");;
  title ← getitem df "title";
  title_str ← str title;
  let title_length := str_len title_str in
  let df := set_column "title_length" (NumCol title_length) df in
  print (Float "Average title length" (mean title_length));;
  print (Float "Min title length" (inject_Z <$> smin title_length));;
  print (Float "Max title length" (inject_Z <$> smax title_length));;
  print (Unmodelled "Title length std");;
  print (Line "ABSTRACT ANALYSIS:");;
  abstract ← getitem df "abstract";
  abstract_str ← str abstract;
  let abstract_length := str_len abstract_str in
  let df := set_column "abstract_length" (NumCol abstract_length) df in
  print (Float "Average abstract length" (mean abstract_length));;
  print (Float "Min abstract length" (inject_Z <$> smin abstract_length));;
  print (Float "Max abstract length" (inject_Z <$> smax abstract_length));;
  print (Unmodelled "Abstract length std");;
  title ← getitem df "title";
  title_str ← str title;
  let title_word_count := str_split_len title_str in
  let df := set_column "title_word_count" (NumCol title_word_count) df in
  abstract ← getitem df "abstract";
  abstract_str ← str abstract;
  let abstract_word_count := str_split_len abstract_str in
  let df :=
    set_column "abstract_word_count" (NumCol abstract_word_count) df in
  print (Float "Average title word count" (mean title_word_count));;
  print (Float "Average abstract word count" (mean abstract_word_count));;
  mret df.

Definition analyze_categorical_columns (df : DataFrame) : M DataFrame :=
  print (Line "8. CATEGORICAL VARIABLES ANALYSIS");;
  print (Line "SOURCE DISTRIBUTION:");;
  source ← getitem df "source";
  let source_counts := value_counts source in
  print (Counts "source" source_counts);;
  print (Number "Number of unique sources" (Z.of_nat (nunique source)));;
  print (Line "GROUP DISTRIBUTION:");;
  group ← getitem df "group";
  let group_counts := value_counts group in
  print (Counts "group" group_counts);;
  print (Number "Number of unique groups" (Z.of_nat (nunique group)));;
  print (Line "MANUAL COLUMN ANALYSIS:");;
  manual ← getitem df "Manual";
  let manual_counts := value_counts manual in
  print (Counts "Manual" manual_counts);;
  print (Number "Number of unique Manual values"
           (Z.of_nat (nunique manual)));;
  mret df.

Definition analyze_pmid_column (df : DataFrame) : M DataFrame :=
  print (Line "9. PMID ANALYSIS");;
  pmid ← getitem df "pmid";
  print (Number "Number of unique PMIDs" (Z.of_nat (nunique pmid)));;
  print (Number "Total rows" (Z.of_nat (nrows df)));;
  print (Number "Duplicate PMIDs"
           (Z.of_nat (nrows df) - Z.of_nat (nunique pmid)));;
  let missing_pmids := isnull_sum pmid in
  print (Number "Missing PMIDs" (Z.of_nat missing_pmids));;
  mret df.

Definition create_visualizations (env : Env) (df : DataFrame)
  : M DataFrame :=
  print (Line "10. CREATING VISUALIZATIONS");;
  library env "plt.subplots";;
  title_length ← getitem df "title_length";
  library env "hist title_length";;
  abstract_length ← getitem df "abstract_length";
  library env "hist abstract_length";;
  source ← getitem df "source";
  let source_counts := value_counts source in
  library env "pie source_counts";;
  group ← getitem df "group";
  let group_counts := take 10 (value_counts group) in
  library env "barh group_counts";;
  title_word_count ← getitem df "title_word_count";
  library env "hist title_word_count";;
  abstract_word_count ← getitem df "abstract_word_count";
  library env "hist abstract_word_count";;
  library env "plt.tight_layout";;
  library env "plt.savefig eda_visualizations.png";;
  print (Line "Visualizations saved as 'eda_visualizations.png'");;
  mret df.

(** [' '.join(df['title'].astype(str) + ' ' + df['abstract'].astype(str))] *)
Definition corpus (df : DataFrame) : M string :=
  title ← getitem df "title";
  abstract ← getitem df "abstract";
  mret (Text.join " "
          (zip_with (λ t a, t +:+ " " +:+ a)
                    (astype_str title) (astype_str abstract))).

(** [re.findall(r'\b\w+\b', all_text.lower())] *)
Definition words_of (all_text : string) : list string :=
  Text.findall_words (Text.lower all_text).

(** [for word, count in c.most_common(20): print(f"  {word}: {count}")] *)
Definition print_top (c : Counter.t (K := string)) : M () :=
  for_each (Counter.most_common 20 c) (λ wc, print (Entry wc.1 wc.2)).

Definition numerical_cols : list string :=
  ["title_length"; "abstract_length";
   "title_word_count"; "abstract_word_count"].

Definition statistical_summary (section : string) (df : DataFrame)
  : M DataFrame :=
  print (Line section);;
  print (Line "Numerical columns summary:");;
  for_each numerical_cols (λ k, getitem df k;; mret ());;
  print (Unmodelled "describe");;
  print (Line "Correlation between text lengths:");;
  getitem df "title_length";;
  getitem df "abstract_length";;
  print (Unmodelled "Title length vs Abstract length correlation");;
  mret df.

End Shared.

(** ** eda_simple.py *)

Module eda_simple.
Import Pandas Run Shared.

(** The set literal of [text_analysis], in the order it is written; only
    membership is ever asked of it. *)
Definition common_words : list string :=
  ["the"; "a"; "an"; "and"; "or"; "but"; "in"; "on"; "at"; "to"; "for";
   "of"; "with"; "by"; "is"; "are"; "was"; "were"; "be"; "been"; "have";
   "has"; "had"; "do"; "does"; "did"; "will"; "would"; "could"; "should";
   "may"; "might"; "can"; "this"; "that"; "these"; "those"; "i"; "you";
   "he"; "she"; "it"; "we"; "they"; "me"; "him"; "her"; "us"; "them";
   "my"; "your"; "his"; "her"; "its"; "our"; "their"; "mine"; "yours";
   "hers"; "ours"; "theirs"].

(** The loop over [words] that appends to [filtered_words]. *)
Fixpoint filter_loop (common_words words filtered_words : list string)
  : list string :=
  match words with
  | [] => filtered_words
  | word :: words' =>
      if bool_decide (Text.lower word ∉ common_words)
         && bool_decide (2 < Text.len word)
      then filter_loop common_words words'
                       (filtered_words ++ [Text.lower word])
      else filter_loop common_words words' filtered_words
  end.

(** The two frequency tables of [text_analysis] for a corpus, the set of
    common words being a parameter. *)
Definition word_counts (all_text : string) : Counter.t :=
  Counter.of_list (words_of all_text).

Definition filtered_word_counts_with (common_words : list string)
    (all_text : string) : Counter.t :=
  Counter.of_list (filter_loop common_words (words_of all_text) []).

Definition filtered_word_counts : string → Counter.t :=
  filtered_word_counts_with common_words.

Definition text_analysis (df : DataFrame) : M DataFrame :=
  print (Line "11. DETAILED TEXT ANALYSIS");;
  all_text ← corpus df;
  print (Number "Total characters in dataset"
           (Z.of_nat (Text.len all_text)));;
  print (Number "Total words in dataset"
           (Z.of_nat (length (Text.split all_text))));;
  print (Line "Most common words (top 20):");;
  print_top (word_counts all_text);;
  print (Line "Most common meaningful words (top 20):");;
  print_top (filtered_word_counts all_text);;
  mret df.

Definition statistical_summary : DataFrame → M DataFrame :=
  Shared.statistical_summary "12. STATISTICAL SUMMARY".

(** [(count / len(df)) * 100] *)
Definition percentage (count n : nat) : M Q :=
  match n with
  | 0 => raise ZeroDivisionError
  | S _ => mret (Qmake (Z.of_nat count) (Pos.of_nat n) * 100)%Q
  end.

Definition create_summary_report (df : DataFrame) : M DataFrame :=
  print (Line "13. COMPREHENSIVE SUMMARY REPORT");;
  print (Line "DATASET OVERVIEW:");;
  print (Number "Total records" (Z.of_nat (nrows df)));;
  pmid ← getitem df "pmid";
  print (Number "Unique PMIDs" (Z.of_nat (nunique pmid)));;
  pmid ← getitem df "pmid";
  print (Number "Duplicate PMIDs"
           (Z.of_nat (nrows df) - Z.of_nat (nunique pmid)));;
  source ← getitem df "source";
  print (Number "Sources" (Z.of_nat (nunique source)));;
  group ← getitem df "group";
  print (Number "Medical groups" (Z.of_nat (nunique group)));;
  print (Line "TEXT CHARACTERISTICS:");;
  title_length ← getitem df "title_length";
  title_length ← numeric title_length;
  print (Float "Average title length" (mean title_length));;
  abstract_length ← getitem df "abstract_length";
  abstract_length ← numeric abstract_length;
  print (Float "Average abstract length" (mean abstract_length));;
  title_word_count ← getitem df "title_word_count";
  title_word_count ← numeric title_word_count;
  print (Float "Average title words" (mean title_word_count));;
  abstract_word_count ← getitem df "abstract_word_count";
  abstract_word_count ← numeric abstract_word_count;
  print (Float "Average abstract words" (mean abstract_word_count));;
  print (Line "SOURCE BREAKDOWN:");;
  source ← getitem df "source";
  let source_breakdown := value_counts source in
  for_each source_breakdown
    (λ kc, p ← percentage kc.2 (nrows df); print (Share kc.1 kc.2 p));;
  print (Line "TOP MEDICAL GROUPS:");;
  group ← getitem df "group";
  let group_breakdown := take 10 (value_counts group) in
  for_each group_breakdown
    (λ kc, p ← percentage kc.2 (nrows df); print (Share kc.1 kc.2 p));;
  print (Line "DATA QUALITY:");;
  let missing_data := isnull_sum <$> columns df in
  for_each ["title"; "abstract"; "source"; "group"; "Manual"]
    (λ k, match missing_data !! k with
          | Some n => print (Missing k n)
          | None => raise (KeyError k)
          end);;
  mret df.

(** The body of the [try] statement of [main]. *)
Definition try_block (env : Env) : M () :=
  df ← call Load (load_and_examine_data env);
  df ← call TextColumns (analyze_text_columns df);
  df ← call Categorical (analyze_categorical_columns df);
  df ← call Pmid (analyze_pmid_column df);
  df ← call Visualizations (create_visualizations env df);
  df ← call TextAnalysis (text_analysis df);
  df ← call StatSummary (statistical_summary df);
  df ← call SummaryReport (create_summary_report df);
  print (Line "EDA COMPLETED SUCCESSFULLY!");;
  print (Line "Generated files:");;
  print (Line "- eda_visualizations.png").

Definition main (env : Env) : M () :=
  try_except (try_block env)
    (λ e, print (Failure e);; print (Unmodelled "traceback")).

End eda_simple.

(** ** eda_complete_dataset.py *)

Module eda_complete_dataset.
Import Pandas Run Shared.

Section NLTK.
(** The two NLTK resources the script loads: [stopwords.words('english')]
    and [WordNetLemmatizer().lemmatize]. *)
Variable stopwords_english : list string.
Variable lemmatize : string → string.

(** The loop over [words] that appends the lemmas to [filtered_words]. *)
Fixpoint filter_loop (stop_words words filtered_words : list string)
  : list string :=
  match words with
  | [] => filtered_words
  | word :: words' =>
      if bool_decide (Text.lower word ∉ stop_words)
         && bool_decide (2 < Text.len word)
      then filter_loop stop_words words'
                       (filtered_words ++ [lemmatize (Text.lower word)])
      else filter_loop stop_words words' filtered_words
  end.

Definition word_counts (all_text : string) : Counter.t :=
  Counter.of_list (words_of all_text).

Definition filtered_word_counts (all_text : string) : Counter.t :=
  Counter.of_list (filter_loop stopwords_english (words_of all_text) []).

Definition text_analysis (df : DataFrame) : M DataFrame :=
  print (Line "11. DETAILED TEXT ANALYSIS");;
  all_text ← corpus df;
  print (Number "Total characters in dataset"
           (Z.of_nat (Text.len all_text)));;
  print (Number "Total words in dataset"
           (Z.of_nat (length (Text.split all_text))));;
  print (Line "Most common words (top 20):");;
  print_top (word_counts all_text);;
  print (Line "Most common meaningful words (top 20):");;
  print_top (filtered_word_counts all_text);;
  mret df.

Definition generate_wordcloud (env : Env) (df : DataFrame) : M DataFrame :=
  print (Line "12. GENERATING WORDCLOUD");;
  all_text ← corpus df;
  library env "WordCloud.generate";;
  library env "plt.figure";;
  library env "plt.imshow";;
  library env "plt.tight_layout wordcloud";;
  library env "plt.savefig wordcloud.png";;
  print (Line "Wordcloud saved as 'wordcloud.png'");;
  mret df.

Definition statistical_summary : DataFrame → M DataFrame :=
  Shared.statistical_summary "13. STATISTICAL SUMMARY".

(** The body of the [try] statement of [main]. *)
Definition try_block (env : Env) : M () :=
  df ← call Load (load_and_examine_data env);
  df ← call TextColumns (analyze_text_columns df);
  df ← call Categorical (analyze_categorical_columns df);
  df ← call Pmid (analyze_pmid_column df);
  df ← call Visualizations (create_visualizations env df);
  df ← call TextAnalysis (text_analysis df);
  df ← call Wordcloud (generate_wordcloud env df);
  df ← call StatSummary (statistical_summary df);
  print (Line "EDA COMPLETED SUCCESSFULLY!");;
  print (Line "Generated files:");;
  print (Line "- eda_visualizations.png");;
  print (Line "- wordcloud.png").

Definition main (env : Env) : M () :=
  try_except (try_block env)
    (λ e, print (Failure e);; print (Unmodelled "traceback")).

End NLTK.
End eda_complete_dataset.

(** ** Vocabulary of the specification *)

Module Spec.
Section Spec.
Context {K : Type} `{EqDecision K}.

(** How often [k] occurs in a stream. *)
Definition occurrences (k : K) (stream : list K) : nat :=
  length (filter (λ x, x = k) stream).

(** [stream.index(k)]: the place of the first occurrence, the length of
    the stream when there is none. *)
Fixpoint index_of (k : K) (stream : list K) : nat :=
  match stream with
  | [] => 0
  | x :: stream' => if decide (x = k) then 0 else S (index_of k stream')
  end.

(** Entry [a] is reported before entry [b]: its count is greater, or the
    counts are equal and its key occurs first in the stream. *)
Definition before (stream : list K) (a b : K * nat) : Prop :=
  b.2 < a.2 ∨ (b.2 = a.2 ∧ index_of a.1 stream < index_of b.1 stream).

(** A ranked list over a stream: every entry carries the number of
    occurrences of its key, and every entry is [before] all that
    follow. *)
Definition ranked (stream : list K) (top : list (K * nat)) : Prop :=
  Forall (λ a, a.1 ∈ stream ∧ a.2 = occurrences a.1 stream) top
  ∧ StronglySorted (before stream) top.

End Spec.
End Spec.

(** The words the filter of [text_analysis] keeps: not in the stopword set
    and longer than two characters. *)
Definition meaningful (stop_words : list string) (word : string) : Prop :=
  (Text.lower word ∉ stop_words) ∧ (2 < Text.len word).

#[export] Instance meaningful_dec stop_words word :
  Decision (meaningful stop_words word).
Proof. unfold meaningful. apply _. Defined.

(** Stand-ins for the NLTK resources on the words of the examples: WordNet
    gives [cats] the lemma [cat], [wills] the lemma [will] and [oxen] the
    lemma [ox], and leaves the other words of the examples as they are; the
    stopword list is an excerpt of the English list. *)
Definition lemmatize_sample (word : string) : string :=
  if String.eqb word "cats" then "cat"
  else if String.eqb word "wills" then "will"
  else if String.eqb word "oxen" then "ox"
  else word.

Definition stopwords_sample : list string :=
  ["i"; "me"; "my"; "we"; "our"; "you"; "he"; "she"; "it"; "they"; "the";
   "a"; "an"; "and"; "but"; "if"; "or"; "of"; "at"; "by"; "for"; "with";
   "is"; "are"; "was"; "were"; "be"; "been"; "has"; "have"; "had";
   "will"; "can"].

(** The sample text of the specification. *)
Definition sample_text : string := "The cat sat. The CAT ran.".

(** A token of a character class: a non-empty string of characters of the
    class. *)
Definition token (p : ascii → bool) (t : string) : Prop :=
  Text.all_chars p t = true ∧ t ≠ "".

(** The occurrences of the token [nan] in the texts of a column. *)
Definition nans (texts : list string) : nat :=
  sum_list ((λ t, Spec.occurrences "nan" (Shared.words_of t)) <$> texts).

(** A frame of two records; the title of the second and the abstract of the
    first are missing, and so is the source of the second. *)
Definition frame_sample : Pandas.DataFrame :=
  Pandas.Frame 2
    (list_to_map
       [("pmid", Pandas.NumCol [Some 101%Z; Some 101%Z]);
        ("title", Pandas.ObjectCol [Some "Cats and dogs"; None]);
        ("abstract", Pandas.ObjectCol [None; Some "A study of cats."]);
        ("source", Pandas.ObjectCol [Some "pubmed"; None]);
        ("group", Pandas.ObjectCol [Some "neuro"; Some "neuro"]);
        ("Manual", Pandas.ObjectCol [Some "reviewed"; None])]).

(** A frame of two records with every field present. *)
Definition frame_full : Pandas.DataFrame :=
  Pandas.Frame 2
    (list_to_map
       [("pmid", Pandas.NumCol [Some 101%Z; Some 102%Z]);
        ("title", Pandas.ObjectCol [Some "Cats and dogs"; Some "Sleep"]);
        ("abstract",
         Pandas.ObjectCol [Some "A study of cats."; Some "Cats sleep."]);
        ("source", Pandas.ObjectCol [Some "pubmed"; Some "pubmed"]);
        ("group", Pandas.ObjectCol [Some "neuro"; Some "cardio"]);
        ("Manual", Pandas.ObjectCol [Some "reviewed"; Some "reviewed"])]).

(** The frame [pd.read_csv] gives for a file that holds the header row
    only: no rows, the six columns of dtype object. *)
Definition empty_dataset : Pandas.DataFrame :=
  Pandas.Frame 0
    (list_to_map
       [("pmid", Pandas.ObjectCol []); ("title", Pandas.ObjectCol []);
        ("abstract", Pandas.ObjectCol []); ("source", Pandas.ObjectCol []);
        ("group", Pandas.ObjectCol []); ("Manual", Pandas.ObjectCol [])]).

(** A run that reads [df] and in which no library call fails. *)
Definition env_of (df : Pandas.DataFrame) : Run.Env :=
  {| Run.read_csv := inr df; Run.extern := λ _, None |}.

(** The tables [print(s.value_counts())] wrote under a label. *)
Definition reported_counts (label : string) (stdout : list Run.out)
  : list (list (Pandas.scalar * nat)) :=
  omap (λ o, match o with
             | Run.Counts l rows =>
                 if String.eqb l label then Some rows else None
             | _ => None
             end) stdout.

(** What the report of an empty dataset may hold: counts that are zero
    (the number of columns apart), empty tables, no ranked entry, no
    percentage line and no failure. *)
Definition zero_report (o : Run.out) : bool :=
  match o with
  | Run.Number label n =>
      (n =? 0)%Z || String.eqb label "Number of columns"
  | Run.Counts _ rows => bool_decide (rows = [])
  | Run.Missing _ n => bool_decide (n = 0)
  | Run.Entry _ _ | Run.Share _ _ _ | Run.Failure _ => false
  | _ => true
  end.

(** The components of the specification and the order it gives them. *)
Inductive component :=
| DatasetLoader | StatisticsReporter | TextFrequencyPipeline
| VisualizationRenderer | SummaryReportAssembler.

Definition component_of (f : Run.fn) : component :=
  match f with
  | Run.Load => DatasetLoader
  | Run.TextColumns | Run.Categorical | Run.Pmid | Run.StatSummary =>
      StatisticsReporter
  | Run.TextAnalysis => TextFrequencyPipeline
  | Run.Visualizations | Run.Wordcloud => VisualizationRenderer
  | Run.SummaryReport => SummaryReportAssembler
  end.

Definition rank (c : component) : nat :=
  match c with
  | DatasetLoader => 0
  | StatisticsReporter => 1
  | TextFrequencyPipeline => 2
  | VisualizationRenderer => 3
  | SummaryReportAssembler => 4
  end.

Definition fn_of (ev : Run.event) : Run.fn :=
  match ev with Run.Enter f | Run.Exit f => f end.

(** The order of the specification: a component never runs after one that
    the specification places later. *)
Definition claimed_order (trace : list Run.event) : Prop :=
  StronglySorted le ((λ ev, rank (component_of (fn_of ev))) <$> trace).

(** The events of calling the functions [fs] one after the other, each
    returning before the next is entered. *)
Definition events (fs : list Run.fn) : list Run.event :=
  fs ≫= λ f, [Run.Enter f; Run.Exit f].

(** The calls of [main], in the order of the script. *)
Definition simple_calls : list Run.fn :=
  [Run.Load; Run.TextColumns; Run.Categorical; Run.Pmid; Run.Visualizations;
   Run.TextAnalysis; Run.StatSummary; Run.SummaryReport].

Definition complete_calls : list Run.fn :=
  [Run.Load; Run.TextColumns; Run.Categorical; Run.Pmid; Run.Visualizations;
   Run.TextAnalysis; Run.Wordcloud; Run.StatSummary].

(** The frame [analyze_text_columns] returns: the frame it was given with
    the four columns set. *)
Definition with_derived (titles abstracts : list (option string))
    (df : Pandas.DataFrame) : Pandas.DataFrame :=
  Pandas.set_column "abstract_word_count"
    (Pandas.NumCol (Pandas.str_split_len abstracts))
    (Pandas.set_column "title_word_count"
       (Pandas.NumCol (Pandas.str_split_len titles))
       (Pandas.set_column "abstract_length"
          (Pandas.NumCol (Pandas.str_len abstracts))
          (Pandas.set_column "title_length"
             (Pandas.NumCol (Pandas.str_len titles)) df))).

(** A computation that leaves the trace of calls as it is. *)
Definition quiet {A} (m : Run.M A) : Prop :=
  ∀ w, Run.trace (m w).1 = Run.trace w.

(** A computation that never raises [e]. *)
Definition never_raises {A} (e : Run.exn) (m : Run.M A) : Prop :=
  ∀ w, (m w).2 ≠ inl e.

(** A computation whose calls are those of [fs], in that order, each
    returning before the next is entered: what it adds to the trace is the
    events of [fs] when it returns, and a part of them from the start when it
    raises. *)
Definition follows {A} (fs : list Run.fn) (m : Run.M A) : Prop :=
  ∀ w, ∃ tr,
    Run.trace (m w).1 = Run.trace w ++ tr
    ∧ tr `prefix_of` events fs
    ∧ (∀ a, (m w).2 = inr a → tr = events fs).

(** Lower-case letters, digits and the underscore. *)
Definition is_lower_word (c : ascii) : bool :=
  Text.is_word c && negb (Text.between 65 90 (Text.code c)).

(** The occurrences of a token in the texts of a column. *)
Definition occurrences_in (w : string) (texts : list string) : nat :=
  sum_list ((λ t, Spec.occurrences w (Shared.words_of t)) <$> texts).

(** A stream of twenty-one distinct words. *)
Definition alphabet_stream : list string :=
  ["a"; "b"; "c"; "d"; "e"; "f"; "g"; "h"; "i"; "j"; "k"; "l"; "m"; "n";
   "o"; "p"; "q"; "r"; "s"; "t"; "u"].

(** A computation that, when it returns, returns a value that has [Q]. *)
Definition yields {A} (Q : A → Prop) (m : Run.M A) : Prop :=
  ∀ w w' a, m w = (w', inr a) → Q a.

(** A computation that returns, and returns a value that has [Q]. *)
Definition returns {A} (Q : A → Prop) (m : Run.M A) : Prop :=
  ∀ w, ∃ w' a, m w = (w', inr a) ∧ Q a.

(** A computation that prints only outputs that have [P]. *)
Definition prints {A} (P : Run.out → Prop) (m : Run.M A) : Prop :=
  ∀ w, ∃ outs,
    Run.stdout (m w).1 = Run.stdout w ++ outs ∧ Forall P outs.

(** The outputs of the functions [main] calls: neither the report of a
    failure nor the line that reports success. *)
Definition ordinary (o : Run.out) : Prop :=
  match o with
  | Run.Failure _ => False
  | Run.Line text => text ≠ "EDA COMPLETED SUCCESSFULLY!"
  | _ => True
  end.

(** The body of a [try] statement that prints the line of success when it
    returns, among ordinary outputs, and only ordinary outputs when it
    raises. *)
Definition concludes (m : Run.M ()) : Prop :=
  ∀ w, ∃ outs,
    Run.stdout (m w).1 = Run.stdout w ++ outs
    ∧ match (m w).2 with
      | inr _ =>
          ∃ pre post,
            outs = pre ++ Run.Line "EDA COMPLETED SUCCESSFULLY!" :: post
            ∧ Forall ordinary pre ∧ Forall ordinary post
      | inl _ => Forall ordinary outs
      end.

(** A percentage line, if it is one, shows more than 0 and at most 100. *)
Definition share_in_range (o : Run.out) : Prop :=
  match o with
  | Run.Share _ _ p => (0 < p)%Q ∧ (p <= 100)%Q
  | _ => True
  end.

(** A derived column agrees with the text column it comes from: missing
    where the text is missing, and a number between 0 and [bound] where
    it is present. *)
Definition within (bound : string → Z) (text : option string)
    (cell : option Z) : Prop :=
  match text, cell with
  | Some s, Some n => (0 ≤ n ≤ bound s)%Z
  | None, None => True
  | _, _ => False
  end.

(** A frame whose titles are all numbers, which [pd.read_csv] reads as a
    numeric column. *)
Definition frame_numeric_title : Pandas.DataFrame :=
  Pandas.Frame 1
    (list_to_map
       [("pmid", Pandas.NumCol [Some 7%Z]);
        ("title", Pandas.NumCol [Some 2024%Z]);
        ("abstract", Pandas.ObjectCol [Some "A year."]);
        ("source", Pandas.ObjectCol [Some "pubmed"]);
        ("group", Pandas.ObjectCol [Some "neuro"]);
        ("Manual", Pandas.ObjectCol [Some "reviewed"])]).

(** The message of the [AttributeError] of the [.str] accessor. *)
Definition str_accessor_message : string :=
  "Can only use .str accessor with string values!".

(** * Properties *)

(** ** Characters and tokenization *)

Section TextFacts.
Import Text.

Lemma lower_char_idem c : lower_char (lower_char c) = lower_char c.
Proof. by destruct c as [[] [] [] [] [] [] [] []]. Qed.

Lemma is_word_lower_char c : is_word (lower_char c) = is_word c.
Proof. by destruct c as [[] [] [] [] [] [] [] []]. Qed.

Lemma lower_idem s : lower (lower s) = lower s.
Proof. induction s as [|c s IH]; simpl; [done|]. by rewrite lower_char_idem, IH. Qed.

Lemma app_cons c (s t : string) : String c s +:+ t = String c (s +:+ t).
Proof. done. Qed.

Lemma lower_app s t : lower (s +:+ t) = lower s +:+ lower t.
Proof.
  induction s as [|c s IH]; [done|]. simpl. by rewrite !app_cons, <- IH.
Qed.

Lemma app_assoc_string (s t u : string) : (s +:+ t) +:+ u = s +:+ (t +:+ u).
Proof. induction s as [|c s IH]; [done|]. by rewrite !app_cons, IH. Qed.

Lemma app_empty_r (s : string) : s +:+ "" = s.
Proof. induction s as [|c s IH]; [done|]. by rewrite app_cons, IH. Qed.

Lemma all_chars_app P s t :
  all_chars P (s +:+ t) = all_chars P s && all_chars P t.
Proof.
  induction s as [|c s IH]; [done|]. rewrite app_cons. simpl.
  rewrite IH. by destruct (P c).
Qed.

Lemma emit_nonempty cur : cur ≠ "" → emit cur = [cur].
Proof. by destruct cur. Qed.

Lemma snoc_nonempty (cur : string) c : cur +:+ String c "" ≠ "".
Proof. by destruct cur. Qed.

Section Runs.
Variable p : ascii → bool.

(** Reading on through characters of the class extends the current
    run. *)
Lemma runs_from_app_class cur t s :
  all_chars p t = true →
  runs_from p cur (t +:+ s) = runs_from p (cur +:+ t) s.
Proof.
  revert cur. induction t as [|c t IH]; intros cur Ht.
  - by rewrite app_empty_r.
  - simpl in Ht. apply andb_true_iff in Ht as [Hc Ht].
    rewrite app_cons. simpl. rewrite Hc, IH by done.
    by rewrite app_assoc_string.
Qed.

(** A delimiter closes the current run; what follows is read afresh. *)
Lemma runs_from_app_sep cur a c b :
  p c = false →
  runs_from p cur (a +:+ String c b) = (runs_from p cur a ++ runs p b)%list.
Proof.
  intros Hc. revert cur. induction a as [|d a IH]; intros cur.
  - change ("" +:+ String c b) with (String c b). simpl. by rewrite Hc.
  - rewrite app_cons. simpl. destruct (p d); [apply IH|].
    rewrite <- (assoc_L (++)). f_equal. apply IH.
Qed.

Lemma runs_token t : token p t → runs p t = [t].
Proof.
  intros [Ht Hne]. unfold runs.
  rewrite <- (app_empty_r t) at 1.
  rewrite runs_from_app_class by done. simpl. by apply emit_nonempty.
Qed.

Lemma runs_from_tokens cur s :
  all_chars p cur = true → Forall (token p) (runs_from p cur s).
Proof.
  revert cur. induction s as [|c s IH]; intros cur Hcur; simpl.
  - destruct cur; [constructor|]. by repeat constructor.
  - destruct (p c) eqn:Hc.
    + apply IH. rewrite all_chars_app, Hcur. simpl. by rewrite Hc.
    + apply Forall_app. split; [|by apply IH].
      destruct cur; [constructor|]. by repeat constructor.
Qed.

Lemma runs_tokens s : Forall (token p) (runs p s).
Proof. by apply runs_from_tokens. Qed.

(** Runs of a text joined by a delimiter: the runs of the pieces. *)
Lemma runs_join c l :
  p c = false →
  runs p (join (String c "") l) = concat (runs p <$> l).
Proof.
  intros Hc. induction l as [|x [|y l] IH].
  - done.
  - simpl. by rewrite (right_id_L [] (++)).
  - change (join (String c "") (x :: y :: l))
      with (x +:+ String c (join (String c "") (y :: l))).
    unfold runs at 1. rewrite runs_from_app_sep by done.
    rewrite IH. done.
Qed.

(** Joining tokens by a delimiter and reading the runs gives the tokens
    back. *)
Lemma runs_join_tokens c l :
  p c = false → Forall (token p) l → runs p (join (String c "") l) = l.
Proof.
  intros Hc Hl. rewrite runs_join by done.
  induction Hl as [|x l Hx Hl IH]; [done|].
  by rewrite fmap_cons, concat_cons, IH, (runs_token x).
Qed.

(** The runs keep any property the characters of the text have. *)
Lemma runs_from_lower cur s :
  lower cur = cur →
  Forall (λ t, lower t = t) (runs_from p cur (lower s)).
Proof.
  revert cur. induction s as [|c s IH]; intros cur Hcur; simpl.
  - destruct cur; [constructor|]. by repeat constructor.
  - destruct (p (lower_char c)).
    + apply IH. rewrite lower_app, Hcur. simpl. by rewrite lower_char_idem.
    + apply Forall_app. split; [|by apply IH].
      destruct cur; [constructor|]. by repeat constructor.
Qed.
End Runs.

Lemma findall_words_lower s :
  Forall (λ t, lower t = t) (findall_words (lower s)).
Proof. by apply runs_from_lower. Qed.

Lemma lower_join_fixed sep l :
  lower sep = sep → Forall (λ t, lower t = t) l →
  lower (join sep l) = join sep l.
Proof.
  intros Hsep Hl. induction Hl as [|x l Hx Hl IH]; [done|].
  destruct l as [|y l]; [done|].
  change (join sep (x :: y :: l)) with (x +:+ sep +:+ join sep (y :: l)).
  by rewrite !lower_app, Hx, Hsep, IH.
Qed.

Lemma lower_join sep l : lower (join sep l) = join (lower sep) (lower <$> l).
Proof.
  induction l as [|x [|y l] IH]; [done..|].
  change (join sep (x :: y :: l)) with (x +:+ sep +:+ join sep (y :: l)).
  rewrite !lower_app, IH. done.
Qed.

End TextFacts.

(** C8. Tokenization is idempotent on normalized text: the tokens of a
    lower-cased text, joined by spaces, lower-cased and tokenized again, are
    the same sequence of tokens; so is the sequence obtained by tokenizing
    each token on its own. *)
Theorem tokenization_idempotent (all_text : string) :
  let words := Shared.words_of all_text in
  Shared.words_of (Text.join " " words) = words
  ∧ concat (Shared.words_of <$> words) = words.
Proof.
  cbv zeta. unfold Shared.words_of.
  set (words := Text.findall_words (Text.lower all_text)).
  assert (Hfix : Forall (λ t, Text.lower t = t) words)
    by apply findall_words_lower.
  assert (Htok : Forall (token Text.is_word) words) by apply runs_tokens.
  assert (Hround : Text.findall_words (Text.join " " words) = words)
    by by apply runs_join_tokens.
  split.
  - by rewrite lower_join_fixed.
  - rewrite <- Hround at 2. unfold Text.findall_words at 2.
    rewrite (runs_join _ " ") by done.
    f_equal. apply Forall_fmap_ext_1.
    eapply Forall_impl; [exact Hfix|]. intros t Ht. simpl. by rewrite Ht.
Qed.

(** ** Counters *)

Section CounterFacts.
Context {K : Type} `{EqDecision K}.
Import Counter Spec.
Implicit Types (c : Counter.t (K := K)) (l : list K) (k : K).

Lemma occurrences_cons k x l :
  occurrences k (x :: l)
  = (if decide (x = k) then 1 else 0) + occurrences k l.
Proof. unfold occurrences. rewrite filter_cons. by case_decide. Qed.

Lemma occurrences_app k l1 l2 :
  occurrences k (l1 ++ l2) = occurrences k l1 + occurrences k l2.
Proof. unfold occurrences. by rewrite filter_app, length_app. Qed.

Lemma get_incr k k' c :
  get (incr k c) k' = (if decide (k = k') then 1 else 0) + get c k'.
Proof.
  induction c as [|[k0 n] c IH]; simpl.
  - case_decide; lia.
  - destruct (decide (k0 = k)) as [->|Hne]; simpl.
    + by destruct (decide (k = k')).
    + rewrite IH. destruct (decide (k0 = k')) as [->|]; [|done].
      by rewrite decide_False.
Qed.

Lemma of_list_snoc l x : of_list (l ++ [x]) = incr x (of_list l).
Proof. unfold of_list. by rewrite foldl_app. Qed.

(** A counter built from a stream maps a key to its number of
    occurrences. *)
Lemma get_of_list l k : get (of_list l) k = occurrences k l.
Proof.
  induction l as [|x l IH] using rev_ind; [done|].
  rewrite of_list_snoc, get_incr, IH, occurrences_app, occurrences_cons.
  unfold occurrences at 3. simpl. lia.
Qed.

Lemma keys_incr k c :
  keys (incr k c) = if decide (k ∈ keys c) then keys c else keys c ++ [k].
Proof.
  unfold keys. induction c as [|[k0 n] c IH]; [done|].
  cbn [incr]. destruct (decide (k0 = k)) as [->|Hne].
  - rewrite !fmap_cons. cbn [fst]. by rewrite decide_True by left.
  - rewrite !fmap_cons, IH. cbn [fst].
    destruct (decide (k ∈ c.*1)) as [Hin|Hin].
    + by rewrite decide_True by by right.
    + rewrite decide_False; [done|].
      intros [?|?]%elem_of_cons; congruence.
Qed.

Lemma elem_of_keys_of_list l k : k ∈ keys (of_list l) ↔ k ∈ l.
Proof.
  induction l as [|x l IH] using rev_ind.
  - done.
  - rewrite of_list_snoc, keys_incr, elem_of_app, list_elem_of_singleton.
    case_decide as Hx.
    + split; [rewrite IH; tauto|]. intros [?| ->]; [by apply IH|done].
    + by rewrite elem_of_app, list_elem_of_singleton, IH.
Qed.

Lemma NoDup_keys_of_list l : NoDup (keys (of_list l)).
Proof.
  induction l as [|x l IH] using rev_ind; [constructor|].
  rewrite of_list_snoc, keys_incr. case_decide as Hx; [done|].
  apply NoDup_app. split_and!; [done| |apply NoDup_singleton].
  intros y Hy ->%list_elem_of_singleton. done.
Qed.

Lemma get_elem_of c k n : NoDup (keys c) → (k, n) ∈ c → get c k = n.
Proof.
  unfold keys. induction c as [|[k0 n0] c IH]; simpl.
  - by intros _ ?%elem_of_nil.
  - intros [Hk0 Hnd]%NoDup_cons [Heq|Hin]%elem_of_cons.
    + injection Heq as -> ->. by rewrite decide_True.
    + case_decide as Hk; [|by apply IH]. subst k0.
      destruct Hk0. apply list_elem_of_fmap. by exists (k, n).
Qed.

(** The entries of a counter built from a stream. *)
Lemma of_list_entries l :
  Forall (λ a, a.1 ∈ l ∧ a.2 = occurrences a.1 l) (of_list l).
Proof.
  apply Forall_forall. intros [k n] Hin. simpl. split.
  - apply elem_of_keys_of_list, list_elem_of_fmap. by exists (k, n).
  - rewrite <- get_of_list. symmetry.
    by apply get_elem_of; [apply NoDup_keys_of_list|].
Qed.

Lemma index_of_lt k l : k ∈ l → index_of k l < length l.
Proof.
  induction l as [|x l IH]; simpl; [by intros ?%elem_of_nil|].
  intros Hin. case_decide; [lia|].
  apply elem_of_cons in Hin as [?|Hin]; [congruence|]. apply IH in Hin. lia.
Qed.

Lemma index_of_app_l k l1 l2 :
  k ∈ l1 → index_of k (l1 ++ l2) = index_of k l1.
Proof.
  induction l1 as [|x l1 IH]; simpl; [by intros ?%elem_of_nil|].
  intros Hin. case_decide; [done|]. f_equal. apply IH.
  apply elem_of_cons in Hin as [?|?]; [congruence|done].
Qed.

Lemma index_of_app_r k l1 l2 :
  k ∉ l1 → index_of k (l1 ++ l2) = length l1 + index_of k l2.
Proof.
  induction l1 as [|x l1 IH]; simpl; [done|].
  intros Hin. apply not_elem_of_cons in Hin as [? ?].
  rewrite decide_False by done. f_equal. by apply IH.
Qed.

Lemma StronglySorted_impl_elem {A} (R R' : relation A) (xs : list A) :
  (∀ a b, a ∈ xs → b ∈ xs → R a b → R' a b) →
  StronglySorted R xs → StronglySorted R' xs.
Proof.
  induction xs as [|a xs IH]; intros Himpl; [constructor|].
  rewrite !StronglySorted_cons, !Forall_forall. intros [Ha Hxs]. split.
  - intros b Hb. apply Himpl; [by left|by right|by apply Ha].
  - apply IH; [|done]. intros b b' Hb Hb'. apply Himpl; by right.
Qed.

Lemma StronglySorted_unfmap {A B} (f : A → B) (R : relation B) xs :
  StronglySorted R (f <$> xs) → StronglySorted (λ a b, R (f a) (f b)) xs.
Proof.
  induction xs as [|a xs IH]; [constructor|].
  rewrite fmap_cons, !StronglySorted_cons, Forall_fmap.
  intros [Ha Hxs]. split; [done|by apply IH].
Qed.

Lemma StronglySorted_take {A} (R : relation A) n xs :
  StronglySorted R xs → StronglySorted R (take n xs).
Proof.
  rewrite <- (take_drop n xs) at 1. apply StronglySorted_app_1_l.
Qed.

(** Insertion order is the order of first occurrence. *)
Lemma keys_of_list_first_seen l :
  StronglySorted (λ a b, index_of a l < index_of b l) (keys (of_list l)).
Proof.
  induction l as [|x l IH] using rev_ind; [constructor|].
  assert (Hmono : StronglySorted
            (λ a b, index_of a (l ++ [x]) < index_of b (l ++ [x]))
            (keys (of_list l))).
  { revert IH. apply StronglySorted_impl_elem.
    intros a b Ha Hb. rewrite elem_of_keys_of_list in Ha, Hb.
    by rewrite !index_of_app_l. }
  rewrite of_list_snoc, keys_incr. case_decide as Hx; [done|].
  apply StronglySorted_app_2; [|done|repeat constructor].
  intros a b Ha ->%list_elem_of_singleton.
  rewrite elem_of_keys_of_list in Ha, Hx.
  rewrite index_of_app_l, index_of_app_r by done.
  apply index_of_lt in Ha. lia.
Qed.

Lemma insert_desc_perm (x : K * nat) c : insert_desc x c ≡ₚ x :: c.
Proof.
  induction c as [|y c IH]; simpl; [done|].
  destruct (x.2 <? y.2); [|done]. by rewrite IH, Permutation_swap.
Qed.

Lemma sorted_desc_perm c : sorted_desc c ≡ₚ c.
Proof.
  induction c as [|x c IH]; [done|].
  unfold sorted_desc in *. simpl. by rewrite insert_desc_perm, IH.
Qed.

(** The sort puts the entries in reporting order when it starts from
    entries in first-seen order. *)
Lemma insert_desc_sorted l (x : K * nat) c :
  Forall (λ y, index_of x.1 l < index_of y.1 l) c →
  StronglySorted (before l) c →
  StronglySorted (before l) (insert_desc x c).
Proof.
  induction c as [|y c IH]; simpl; [repeat constructor|].
  intros [Hxy Hxc]%Forall_cons [Hyc Hc]%StronglySorted_cons.
  destruct (Nat.ltb_spec x.2 y.2) as [Hlt|Hge].
  - apply StronglySorted_cons. split; [|by apply IH].
    rewrite insert_desc_perm. constructor; [by left|done].
  - apply StronglySorted_cons. split; [|by apply StronglySorted_cons].
    assert (Hy : before l x y).
    { unfold before. destruct (decide (y.2 = x.2)); [right|left]; lia. }
    constructor; [done|].
    rewrite Forall_forall in Hxc, Hyc |- *. intros z Hz.
    specialize (Hxc z Hz). specialize (Hyc z Hz).
    unfold before in *. destruct (decide (z.2 = x.2)); [right|left]; lia.
Qed.

Lemma sorted_desc_sorted l c :
  StronglySorted (λ a b, index_of a.1 l < index_of b.1 l) c →
  StronglySorted (before l) (sorted_desc c).
Proof.
  induction c as [|x c IH]; [constructor|].
  intros [Hx Hc]%StronglySorted_cons. unfold sorted_desc in *. simpl.
  apply insert_desc_sorted; [|by apply IH].
  by rewrite (sorted_desc_perm c).
Qed.

(** [most_common n] of a counter built from a stream is a ranked list
    over the stream. *)
Lemma most_common_ranked n l : ranked l (most_common n (of_list l)).
Proof.
  split.
  - apply Forall_take. rewrite sorted_desc_perm. apply of_list_entries.
  - apply StronglySorted_take, sorted_desc_sorted.
    apply (StronglySorted_unfmap fst (λ a b, index_of a l < index_of b l)).
    apply keys_of_list_first_seen.
Qed.

Lemma total_incr k c : total (incr k c) = S (total c).
Proof.
  unfold total. induction c as [|[k0 n] c IH]; [done|].
  cbn [incr]. case_decide; rewrite !fmap_cons; cbn [snd].
  - done.
  - change (n + sum_list (incr k c).*2 = S (n + sum_list c.*2)).
    rewrite IH. lia.
Qed.

Lemma total_of_list l : total (of_list l) = length l.
Proof.
  induction l as [|x l IH] using rev_ind; [done|].
  rewrite of_list_snoc, total_incr, IH, length_app. simpl. lia.
Qed.

Lemma total_sorted_desc c : total (sorted_desc c) = total c.
Proof. unfold total. by rewrite sorted_desc_perm. Qed.

End CounterFacts.

(** ** The filter loops *)

Section FilterFacts.
Import Counter Spec Shared.

Lemma simple_filter_loop common_words words filtered_words :
  eda_simple.filter_loop common_words words filtered_words
  = filtered_words
    ++ (Text.lower <$> filter (meaningful common_words) words).
Proof.
  revert filtered_words.
  induction words as [|w ws IH]; intros acc; simpl.
  - by rewrite (right_id_L [] (++)).
  - rewrite filter_cons. unfold meaningful at 1.
    destruct (decide (Text.lower w ∉ common_words)) as [Hw|Hw];
      destruct (decide (2 < Text.len w)) as [Hl|Hl];
      rewrite ?(bool_decide_eq_true_2 _ Hw), ?(bool_decide_eq_false_2 _ Hw),
        ?(bool_decide_eq_true_2 _ Hl), ?(bool_decide_eq_false_2 _ Hl);
      simpl; rewrite IH.
    + rewrite decide_True by done.
      by rewrite fmap_cons, <- (assoc_L (++)).
    + rewrite decide_False; [done|]. by intros [_ ?].
    + rewrite decide_False; [done|]. by intros [? _].
    + rewrite decide_False; [done|]. by intros [? _].
Qed.

Lemma complete_filter_loop lemmatize stop_words words filtered_words :
  eda_complete_dataset.filter_loop lemmatize stop_words words filtered_words
  = filtered_words
    ++ ((λ w, lemmatize (Text.lower w))
          <$> filter (meaningful stop_words) words).
Proof.
  revert filtered_words.
  induction words as [|w ws IH]; intros acc; simpl.
  - by rewrite (right_id_L [] (++)).
  - rewrite filter_cons. unfold meaningful at 1.
    destruct (decide (Text.lower w ∉ stop_words)) as [Hw|Hw];
      destruct (decide (2 < Text.len w)) as [Hl|Hl];
      rewrite ?(bool_decide_eq_true_2 _ Hw), ?(bool_decide_eq_false_2 _ Hw),
        ?(bool_decide_eq_true_2 _ Hl), ?(bool_decide_eq_false_2 _ Hl);
      simpl; rewrite IH.
    + rewrite decide_True by done.
      by rewrite fmap_cons, <- (assoc_L (++)).
    + rewrite decide_False; [done|]. by intros [_ ?].
    + rewrite decide_False; [done|]. by intros [? _].
    + rewrite decide_False; [done|]. by intros [? _].
Qed.

Lemma fmap_lower_fixed (ws : list string) :
  Forall (λ t, Text.lower t = t) ws → Text.lower <$> ws = ws.
Proof.
  intros Hws. rewrite <- (list_fmap_id ws) at 2.
  apply Forall_fmap_ext_1. by eapply Forall_impl.
Qed.

(** In [eda_simple] the filtered stream is the stream of the words kept,
    unchanged. *)
Lemma simple_filtered_stream common_words all_text :
  eda_simple.filter_loop common_words (words_of all_text) []
  = filter (meaningful common_words) (words_of all_text).
Proof.
  rewrite simple_filter_loop. simpl. apply fmap_lower_fixed.
  apply Forall_forall. intros t [_ Ht]%list_elem_of_filter. revert t Ht.
  apply Forall_forall, findall_words_lower.
Qed.

Lemma occurrences_filter_le {A} `{EqDecision A} (P : A → Prop)
    `{∀ x, Decision (P x)} (k : A) (l : list A) :
  occurrences k (filter P l) ≤ occurrences k l.
Proof.
  induction l as [|x l IH]; [done|].
  rewrite filter_cons. case_decide; rewrite !occurrences_cons; lia.
Qed.

Lemma occurrences_fmap {A B} `{EqDecision A, EqDecision B} (f : A → B)
    (k : B) (l : list A) :
  occurrences k (f <$> l) = length (filter (λ x, f x = k) l).
Proof.
  induction l as [|x l IH]; [done|].
  rewrite fmap_cons, occurrences_cons, filter_cons, IH.
  case_decide; simpl; lia.
Qed.

Lemma occurrences_fmap_ge {A} `{EqDecision A} (f : A → A) (k : A)
    (l : list A) :
  f k = k → occurrences k l ≤ occurrences k (f <$> l).
Proof.
  intros Hk. induction l as [|x l IH]; [done|].
  rewrite fmap_cons, !occurrences_cons.
  destruct (decide (x = k)) as [->|]; [rewrite decide_True by done|]; lia.
Qed.

Lemma occurrences_filter_keep {A} `{EqDecision A} (P : A → Prop)
    `{∀ x, Decision (P x)} (k : A) (l : list A) :
  P k → occurrences k (filter P l) = occurrences k l.
Proof.
  intros Hk. induction l as [|x l IH]; [done|].
  rewrite filter_cons, !occurrences_cons.
  destruct (decide (x = k)) as [->|Hne].
  - by rewrite decide_True, occurrences_cons, decide_True, IH.
  - case_decide; rewrite ?occurrences_cons, ?decide_False by done; lia.
Qed.

Lemma length_filter_and_le {A} (P Q : A → Prop) `{∀ x, Decision (P x)}
    `{∀ x, Decision (Q x)} (l : list A) :
  length (filter Q (filter P l)) ≤ length (filter Q l).
Proof.
  induction l as [|x l IH]; [done|].
  rewrite !filter_cons.
  destruct (decide (P x)); rewrite ?filter_cons;
    destruct (decide (Q x)); simpl; lia.
Qed.

(** Filtering keeps the order of first occurrence. *)
Lemma index_of_filter {A} `{EqDecision A} (P : A → Prop)
    `{∀ x, Decision (P x)} (a b : A) (l : list A) :
  P a → P b →
  index_of a (filter P l) < index_of b (filter P l) →
  index_of a l < index_of b l.
Proof.
  intros Ha Hb. induction l as [|x l IH]; [done|].
  rewrite filter_cons. destruct (decide (P x)) as [Hx|Hx]; simpl.
  - destruct (decide (x = a)), (decide (x = b)); lia.
  - rewrite !decide_False by congruence. lia.
Qed.

End FilterFacts.

(** ** The frequency tables of [text_analysis] *)

Section Tables.
Import Counter Spec Shared.

(** The filtered table of [eda_simple] counts the words kept. *)
Lemma simple_filtered_get common_words all_text w :
  get (eda_simple.filtered_word_counts_with common_words all_text) w
  = occurrences w (filter (meaningful common_words) (words_of all_text)).
Proof.
  unfold eda_simple.filtered_word_counts_with.
  by rewrite get_of_list, simple_filtered_stream.
Qed.

(** The filtered table of [eda_complete_dataset] counts the lemmas of the
    words kept. *)
Lemma complete_filtered_get stop lemmatize all_text l :
  get (eda_complete_dataset.filtered_word_counts stop lemmatize all_text) l
  = occurrences l
      (lemmatize <$> filter (meaningful stop) (words_of all_text)).
Proof.
  unfold eda_complete_dataset.filtered_word_counts.
  rewrite get_of_list, complete_filter_loop. simpl. f_equal.
  apply Forall_fmap_ext_1, Forall_forall.
  intros t [_ Ht]%list_elem_of_filter.
  assert (Hfix := findall_words_lower all_text).
  rewrite Forall_forall in Hfix. by rewrite (Hfix t Ht).
Qed.

End Tables.

(** C1, as the claim has it, fails in [eda_complete_dataset]: the filtered
    table counts lemmas, so for the corpus [cats cat] the lemma [cat] has
    count 2 in the filtered table and count 1 in the raw table. *)
Lemma filtered_count_exceeds_raw :
  ¬ (Counter.get (eda_complete_dataset.filtered_word_counts
                    stopwords_sample lemmatize_sample "cats cat") "cat"
     ≤ Counter.get (eda_complete_dataset.word_counts "cats cat") "cat").
Proof. vm_compute. lia. Qed.

(** Nor does the filtered table of [eda_complete_dataset] keep clear of
    stopwords and short tokens: the lemma of a word that passed the filter
    can be either. *)
Lemma lemma_may_be_filtered_word :
  let filtered :=
    eda_complete_dataset.filtered_word_counts stopwords_sample
      lemmatize_sample "wills oxen" in
  Counter.keys filtered = ["will"; "ox"]
  ∧ "will" ∈ stopwords_sample ∧ Text.len "ox" = 2.
Proof. cbv zeta. split_and!; compute_done. Qed.

(** C1, amended.  In [eda_simple] the filtered table gives every token a
    count at most its count in the raw table, and holds no token of the set
    of common words and no token of length two or less.  In
    [eda_complete_dataset] the filtered table is keyed by lemma: the count of
    a lemma is at most the number of raw tokens having that lemma, and every
    key is the lemma of a raw token that is not a stopword and is longer than
    two characters. *)
Theorem filtered_counts_bounded :
  (∀ all_text w,
      Counter.get (eda_simple.filtered_word_counts all_text) w
      ≤ Counter.get (eda_simple.word_counts all_text) w)
  ∧ (∀ all_text w,
      w ∈ Counter.keys (eda_simple.filtered_word_counts all_text) →
      (w ∉ eda_simple.common_words) ∧ 2 < Text.len w)
  ∧ (∀ stop lemmatize all_text l,
      Counter.get
        (eda_complete_dataset.filtered_word_counts stop lemmatize all_text) l
      ≤ length (filter (λ w, lemmatize w = l) (Shared.words_of all_text)))
  ∧ (∀ stop lemmatize all_text l,
      l ∈ Counter.keys
            (eda_complete_dataset.filtered_word_counts stop lemmatize all_text) →
      ∃ w, w ∈ Shared.words_of all_text ∧ l = lemmatize w
           ∧ (w ∉ stop) ∧ 2 < Text.len w).
Proof.
  split_and!.
  - intros all_text w. unfold eda_simple.filtered_word_counts.
    rewrite simple_filtered_get. unfold eda_simple.word_counts.
    rewrite get_of_list. apply occurrences_filter_le.
  - intros all_text w. unfold eda_simple.filtered_word_counts,
      eda_simple.filtered_word_counts_with.
    rewrite elem_of_keys_of_list, simple_filtered_stream.
    intros [[Hstop Hlen] Hw]%list_elem_of_filter. split; [|done].
    assert (Hfix := findall_words_lower all_text).
    rewrite Forall_forall in Hfix. by rewrite <- (Hfix w Hw).
  - intros stop lemmatize all_text l.
    rewrite complete_filtered_get, occurrences_fmap.
    apply length_filter_and_le.
  - intros stop lemmatize all_text l.
    unfold eda_complete_dataset.filtered_word_counts.
    rewrite elem_of_keys_of_list, complete_filter_loop. simpl.
    intros (w & -> & [[Hstop Hlen] Hw]%list_elem_of_filter)%list_elem_of_fmap.
    assert (Hfix := findall_words_lower all_text).
    rewrite Forall_forall in Hfix. rewrite (Hfix w Hw) in *. by exists w.
Qed.

(** C5. Each top-20 list that [text_analysis] reports, raw or filtered, in
    either script, is ranked over the token stream its table was built from:
    an entry carries the count of its token, counts descend, and among equal
    counts the token that occurs first in the stream comes first.  In
    [eda_simple], where the filtered stream is a part of the raw stream, the
    filtered list is in the order of first occurrence in the raw stream as
    well. *)
Theorem top20_ranked (all_text : string) :
  let words := Shared.words_of all_text in
  Spec.ranked words (Counter.most_common 20 (eda_simple.word_counts all_text))
  ∧ Spec.ranked (eda_simple.filter_loop eda_simple.common_words words [])
      (Counter.most_common 20 (eda_simple.filtered_word_counts all_text))
  ∧ StronglySorted (Spec.before words)
      (Counter.most_common 20 (eda_simple.filtered_word_counts all_text))
  ∧ Spec.ranked words
      (Counter.most_common 20 (eda_complete_dataset.word_counts all_text))
  ∧ ∀ stop lemmatize,
      Spec.ranked (eda_complete_dataset.filter_loop lemmatize stop words [])
        (Counter.most_common 20
           (eda_complete_dataset.filtered_word_counts stop lemmatize all_text)).
Proof.
  intros words. split_and!; try apply most_common_ranked.
  - pose proof (most_common_ranked 20
      (eda_simple.filter_loop eda_simple.common_words words [])) as [He Hs].
    fold (eda_simple.filtered_word_counts_with eda_simple.common_words all_text)
      in He, Hs.
    fold (eda_simple.filtered_word_counts all_text) in He, Hs.
    revert Hs. apply StronglySorted_impl_elem. intros a b Ha Hb.
    rewrite Forall_forall in He.
    destruct (He a Ha) as [Ha' _], (He b Hb) as [Hb' _].
    subst words. rewrite simple_filtered_stream in *.
    apply list_elem_of_filter in Ha' as [Ha' _], Hb' as [Hb' _].
    intros [Hlt|[Heq Hidx]]; [by left|right]. split; [done|].
    by eapply index_of_filter.
  - intros stop lemmatize. apply most_common_ranked.
Qed.

(** ** Independence of the enumeration of the stopword set *)

Lemma meaningful_ext stop1 stop2 (ws : list string) :
  (∀ w, w ∈ stop1 ↔ w ∈ stop2) →
  filter (meaningful stop1) ws = filter (meaningful stop2) ws.
Proof.
  intros Hsame. apply list_filter_iff. intros w. unfold meaningful.
  by rewrite Hsame.
Qed.

(** C4. The reported lists are a function of the corpus and of the stopword
    set alone: two runs on the same text whose stopword sets have the same
    members, in whatever order a set enumerates them, report the same raw and
    the same filtered top-20 list, in either script. *)
Theorem text_analysis_deterministic (stop1 stop2 : list string)
    (lemmatize : string → string) (all_text : string) :
  (∀ w, w ∈ stop1 ↔ w ∈ stop2) →
  Counter.most_common 20 (eda_simple.filtered_word_counts_with stop1 all_text)
  = Counter.most_common 20
      (eda_simple.filtered_word_counts_with stop2 all_text)
  ∧ Counter.most_common 20
      (eda_complete_dataset.filtered_word_counts stop1 lemmatize all_text)
    = Counter.most_common 20
        (eda_complete_dataset.filtered_word_counts stop2 lemmatize all_text)
  ∧ Counter.most_common 20 (eda_simple.word_counts all_text)
    = Counter.most_common 20 (eda_complete_dataset.word_counts all_text).
Proof.
  intros Hsame. split_and!; [| |done].
  - unfold eda_simple.filtered_word_counts_with.
    by rewrite !simple_filter_loop, (meaningful_ext stop1 stop2).
  - unfold eda_complete_dataset.filtered_word_counts.
    by rewrite !complete_filter_loop, (meaningful_ext stop1 stop2).
Qed.

(** An instance: the same set of two stopwords, enumerated in two ways. *)
Lemma text_analysis_deterministic_witness :
  Counter.most_common 20
    (eda_simple.filtered_word_counts_with ["the"; "a"] "The cat sat on a mat")
  = Counter.most_common 20
      (eda_simple.filtered_word_counts_with ["a"; "the"; "a"]
         "The cat sat on a mat").
Proof.
  apply (text_analysis_deterministic ["the"; "a"] ["a"; "the"; "a"]
           lemmatize_sample "The cat sat on a mat").
  intros w. rewrite !elem_of_cons. tauto.
Defined.

(** ** The sample text *)

(** C7. For the sample text the raw table has [the] and [cat] with count 2
    each, both reported; the filtered table of [eda_simple] has no [the] and
    has [cat] with count 2, reported.  So has the filtered table of
    [eda_complete_dataset] when [the] is a stopword, [cat] is not, and the
    lemmatizer leaves [cat], [sat] and [ran] as they are. *)
Theorem sample_text_tables :
  let raw := eda_simple.word_counts sample_text in
  let filtered := eda_simple.filtered_word_counts sample_text in
  (Counter.get raw "the" = 2 ∧ Counter.get raw "cat" = 2
   ∧ ("the", 2) ∈ Counter.most_common 20 raw
   ∧ ("cat", 2) ∈ Counter.most_common 20 raw)
  ∧ (("the" ∉ Counter.keys filtered) ∧ Counter.get filtered "cat" = 2
     ∧ ("cat", 2) ∈ Counter.most_common 20 filtered)
  ∧ eda_complete_dataset.word_counts sample_text = raw
  ∧ ∀ stop lemmatize,
      "the" ∈ stop → "cat" ∉ stop →
      lemmatize "cat" = "cat" → lemmatize "sat" = "sat" →
      lemmatize "ran" = "ran" →
      let filtered' :=
        eda_complete_dataset.filtered_word_counts stop lemmatize sample_text in
      ("the" ∉ Counter.keys filtered') ∧ Counter.get filtered' "cat" = 2
      ∧ ("cat", 2) ∈ Counter.most_common 20 filtered'.
Proof.
  cbv zeta. split_and!; try compute_done.
  intros stop lemmatize Hthe Hcat Lcat Lsat Lran.
  unfold eda_complete_dataset.filtered_word_counts.
  rewrite complete_filter_loop.
  change (Shared.words_of sample_text)
    with ["the"; "cat"; "sat"; "the"; "cat"; "ran"].
  assert (Mthe : ¬ meaningful stop "the") by (by intros [? _]).
  assert (Mcat : meaningful stop "cat") by (split; [done|compute_done]).
  rewrite !filter_cons, filter_nil.
  rewrite !(decide_False _ _ Mthe), !(decide_True _ _ Mcat).
  destruct (decide (meaningful stop "sat"));
    destruct (decide (meaningful stop "ran"));
    rewrite ?fmap_cons, ?fmap_nil;
    change (Text.lower "cat") with "cat";
    change (Text.lower "sat") with "sat";
    change (Text.lower "ran") with "ran";
    rewrite ?Lcat, ?Lsat, ?Lran; split_and!; compute_done.
Qed.

(** An instance, with the sample resources. *)
Lemma sample_text_tables_witness :
  Counter.get
    (eda_complete_dataset.filtered_word_counts stopwords_sample
       lemmatize_sample sample_text) "cat" = 2.
Proof.
  destruct sample_text_tables as (_ & _ & _ & H).
  apply (H stopwords_sample lemmatize_sample); try reflexivity.
  - compute_done.
  - compute_done.
Defined.

(** ** The corpus and missing fields *)

Section Corpus.
Import Counter Spec Shared Pandas Run.

Lemma words_of_app_space t a :
  words_of (t +:+ " " +:+ a) = words_of t ++ words_of a.
Proof.
  unfold words_of, Text.findall_words, Text.runs.
  rewrite lower_app. change (Text.lower (" " +:+ a))
    with (String " "%char (Text.lower a)).
  by rewrite runs_from_app_sep.
Qed.

Lemma words_of_join (texts : list string) :
  words_of (Text.join " " texts) = concat (words_of <$> texts).
Proof.
  unfold words_of. rewrite lower_join.
  change (Text.lower " ") with (String " "%char "").
  unfold Text.findall_words. rewrite runs_join by done.
  by rewrite <- list_fmap_compose.
Qed.

Lemma occurrences_concat {A} `{EqDecision A} (k : A) (ls : list (list A)) :
  occurrences k (concat ls) = sum_list (occurrences k <$> ls).
Proof.
  induction ls as [|l ls IH]; [done|].
  rewrite concat_cons, occurrences_app, fmap_cons, IH. done.
Qed.

(** Over rows of a title and an abstract, the corpus has the [nan] tokens
    of both columns. *)
Lemma nans_corpus (titles abstracts : list string) :
  length titles = length abstracts →
  occurrences "nan"
    (words_of (Text.join " "
       (zip_with (λ t a, t +:+ " " +:+ a) titles abstracts)))
  = nans titles + nans abstracts.
Proof.
  rewrite words_of_join, occurrences_concat. unfold nans.
  revert abstracts.
  induction titles as [|t ts IH]; intros [|a abstracts] Hlen;
    try done.
  simpl in Hlen. injection Hlen as Hlen.
  cbn [zip_with]. rewrite !fmap_cons.
  change (sum_list (?x :: ?l)) with (x + sum_list l).
  rewrite IH by done. rewrite words_of_app_space, occurrences_app. lia.
Qed.

(** Every missing cell of a column gives one [nan] token. *)
Lemma isnull_sum_le_nans (c : column) :
  isnull_sum c ≤ nans (astype_str c).
Proof.
  unfold isnull_sum, nans. destruct c as [l|l]; simpl.
  - induction l as [|[s|] l IH]; [done|..];
      rewrite !fmap_cons, filter_cons;
      change (sum_list (?x :: ?l)) with (x + sum_list l).
    + rewrite decide_False by done. lia.
    + rewrite decide_True by done. simpl in *. lia.
  - generalize (bool_decide (None ∈ l)). intros float.
    induction l as [|[z|] l IH]; [done|..];
      rewrite !fmap_cons, filter_cons;
      change (sum_list (?x :: ?l)) with (x + sum_list l).
    + rewrite decide_False by done. lia.
    + rewrite decide_True by done. simpl in *. lia.
Qed.

Lemma length_astype_str (c : column) :
  length (astype_str c) = length (cells c).
Proof. destruct c; simpl; by rewrite !length_fmap. Qed.

End Corpus.

Lemma frame_sample_wf : Pandas.wf frame_sample.
Proof.
  intros k c Hk. apply elem_of_list_to_map_2 in Hk.
  repeat (apply elem_of_cons in Hk as [[= -> ->]|Hk]; [reflexivity|]).
  by apply elem_of_nil in Hk.
Qed.

(** C10. A missing title or abstract is converted to the text [nan], which
    stands in the corpus in that record's place; so the token [nan] has, in
    the raw table and in the filtered table of [eda_simple], a count at least
    the number of missing titles and abstracts.  The same holds of the
    filtered table of [eda_complete_dataset] when [nan] is no stopword and is
    its own lemma. *)
Theorem missing_fields_become_nan (df : Pandas.DataFrame)
    (title abstract : Pandas.column) :
  Pandas.wf df →
  Pandas.columns df !! "title" = Some title →
  Pandas.columns df !! "abstract" = Some abstract →
  let missing := Pandas.isnull_sum title + Pandas.isnull_sum abstract in
  ∃ all_text,
    Shared.corpus df Run.start = (Run.start, inr all_text)
    ∧ (∀ i, Pandas.cells title !! i = Some None →
            Pandas.astype_str title !! i = Some "nan")
    ∧ (∀ i, Pandas.cells abstract !! i = Some None →
            Pandas.astype_str abstract !! i = Some "nan")
    ∧ missing ≤ Counter.get (eda_simple.word_counts all_text) "nan"
    ∧ missing ≤ Counter.get (eda_simple.filtered_word_counts all_text) "nan"
    ∧ missing
      ≤ Counter.get (eda_complete_dataset.word_counts all_text) "nan"
    ∧ ∀ stop lemmatize,
        "nan" ∉ stop → lemmatize "nan" = "nan" →
        missing
        ≤ Counter.get
            (eda_complete_dataset.filtered_word_counts stop lemmatize all_text)
            "nan".
Proof.
  intros Hwf Ht Ha missing. eexists. split.
  { unfold Shared.corpus, Run.getitem. cbv [mbind Run.M_bind].
    rewrite Ht, Ha. reflexivity. }
  set (all_text := Text.join _ _).
  assert (Hcell : ∀ c i, Pandas.cells c !! i = Some None →
                         Pandas.astype_str c !! i = Some "nan").
  { intros [l|l] i; simpl; rewrite !list_lookup_fmap;
      destruct (l !! i) as [[x|]|]; simpl; by try done. }
  assert (Hraw : missing ≤ Spec.occurrences "nan" (Shared.words_of all_text)).
  { subst all_text missing. rewrite nans_corpus.
    - pose proof (isnull_sum_le_nans title).
      pose proof (isnull_sum_le_nans abstract). lia.
    - rewrite !length_astype_str.
      by rewrite (Hwf _ _ Ht), (Hwf _ _ Ha). }
  split_and!; [by apply Hcell|by apply Hcell|..].
  - unfold eda_simple.word_counts. by rewrite get_of_list.
  - unfold eda_simple.filtered_word_counts.
    rewrite simple_filtered_get, occurrences_filter_keep; [done|].
    split; compute_done.
  - unfold eda_complete_dataset.word_counts. by rewrite get_of_list.
  - intros stop lemmatize Hstop Hlem. rewrite complete_filtered_get.
    etransitivity; [|by apply occurrences_fmap_ge].
    rewrite occurrences_filter_keep; [done|].
    split; [done|compute_done].
Qed.

(** An instance: the sample frame has one missing title and one missing
    abstract. *)
Lemma missing_fields_become_nan_witness :
  ∃ all_text,
    Shared.corpus frame_sample Run.start = (Run.start, inr all_text)
    ∧ 2 ≤ Counter.get (eda_simple.filtered_word_counts all_text) "nan".
Proof.
  destruct (missing_fields_become_nan frame_sample
              (Pandas.ObjectCol [Some "Cats and dogs"; None])
              (Pandas.ObjectCol [None; Some "A study of cats."])
              frame_sample_wf eq_refl eq_refl)
    as (all_text & Hc & _ & _ & _ & Hf & _).
  exists all_text. split; [exact Hc|exact Hf].
Defined.

(** ** Category distributions *)

Section Categories.
Import Counter Spec Shared Pandas Run.

Lemma length_present_isnull {A} (l : list (option A)) :
  length (present l) + length (filter (λ x, x = None) l) = length l.
Proof.
  unfold present. induction l as [|[a|] l IH]; [done|..].
  - rewrite filter_cons_False by done. csimpl. lia.
  - rewrite filter_cons_True by done. csimpl. lia.
Qed.

(** The counts of [value_counts] and the missing cells add up to the
    length of the column. *)
Lemma total_value_counts (c : column) :
  total (value_counts c) + isnull_sum c = length (cells c).
Proof.
  unfold value_counts, isnull_sum.
  rewrite total_sorted_desc, total_of_list. apply length_present_isnull.
Qed.

(** What [analyze_categorical_columns] does when the three columns are
    there. *)
Lemma analyze_categorical_columns_run df w source group manual :
  columns df !! "source" = Some source →
  columns df !! "group" = Some group →
  columns df !! "Manual" = Some manual →
  analyze_categorical_columns df w
  = (World
       (stdout w ++
        [Line "8. CATEGORICAL VARIABLES ANALYSIS";
         Line "SOURCE DISTRIBUTION:";
         Counts "source" (value_counts source);
         Number "Number of unique sources" (Z.of_nat (nunique source));
         Line "GROUP DISTRIBUTION:";
         Counts "group" (value_counts group);
         Number "Number of unique groups" (Z.of_nat (nunique group));
         Line "MANUAL COLUMN ANALYSIS:";
         Counts "Manual" (value_counts manual);
         Number "Number of unique Manual values"
           (Z.of_nat (nunique manual))])
       (trace w), inr df).
Proof.
  intros Hs Hg Hm. unfold analyze_categorical_columns, getitem.
  rewrite Hs, Hg, Hm. cbv [mbind M_bind mret M_ret print stdout trace].
  by rewrite <- !(assoc_L (++)).
Qed.

End Categories.

(** C2, as the claim has it, fails: [value_counts] leaves missing values
    out.  In the sample frame the source of one of the two records is
    missing, and the counts reported for [source] sum to 1. *)
Lemma source_counts_miss_a_row :
  let run := Shared.analyze_categorical_columns frame_sample Run.start in
  ¬ (∀ rows, rows ∈ reported_counts "source" (Run.stdout run.1) →
             Counter.total rows = Pandas.nrows frame_sample).
Proof.
  intros run Hall.
  specialize (Hall [(Pandas.Str "pubmed", 1)]).
  assert (Hin : [(Pandas.Str "pubmed", 1)]
                ∈ reported_counts "source" (Run.stdout run.1))
    by (vm_compute; left).
  apply Hall in Hin. vm_compute in Hin. discriminate.
Qed.

(** C2, amended.  For the [source] column and for the [group] column, the
    counts [analyze_categorical_columns] reports sum to the number of rows
    less the number of rows where the column is missing; they sum to the
    number of rows when no value is missing. *)
Theorem category_counts_sum (df : Pandas.DataFrame)
    (source group manual : Pandas.column) :
  Pandas.wf df →
  Pandas.columns df !! "source" = Some source →
  Pandas.columns df !! "group" = Some group →
  Pandas.columns df !! "Manual" = Some manual →
  let run := Shared.analyze_categorical_columns df Run.start in
  let n := Pandas.nrows df in
  run.2 = inr df
  ∧ reported_counts "source" (Run.stdout run.1)
    = [Pandas.value_counts source]
  ∧ reported_counts "group" (Run.stdout run.1) = [Pandas.value_counts group]
  ∧ Counter.total (Pandas.value_counts source) + Pandas.isnull_sum source = n
  ∧ Counter.total (Pandas.value_counts group) + Pandas.isnull_sum group = n
  ∧ (Pandas.isnull_sum source = 0 →
     Counter.total (Pandas.value_counts source) = n)
  ∧ (Pandas.isnull_sum group = 0 →
     Counter.total (Pandas.value_counts group) = n).
Proof.
  intros Hwf Hs Hg Hm run n. subst run n.
  rewrite (analyze_categorical_columns_run df _ source group manual)
    by done.
  pose proof (total_value_counts source) as Ts.
  pose proof (total_value_counts group) as Tg.
  rewrite (Hwf _ _ Hs) in Ts. rewrite (Hwf _ _ Hg) in Tg.
  split_and!; try done; lia.
Qed.

(** An instance: the [source] column of the sample frame. *)
Lemma category_counts_sum_witness :
  Counter.total (Pandas.value_counts (Pandas.ObjectCol [Some "pubmed"; None]))
  + Pandas.isnull_sum (Pandas.ObjectCol [Some "pubmed"; None]) = 2.
Proof.
  destruct (category_counts_sum frame_sample
              (Pandas.ObjectCol [Some "pubmed"; None])
              (Pandas.ObjectCol [Some "neuro"; Some "neuro"])
              (Pandas.ObjectCol [Some "reviewed"; None])
              frame_sample_wf eq_refl eq_refl eq_refl)
    as (_ & _ & _ & Hsum & _).
  exact Hsum.
Defined.


(** ** The derived columns *)

Section DerivedColumns.
Import Shared Pandas Run.

Lemma columns_set_column k c df :
  columns (set_column k c df) = <[k := c]> (columns df).
Proof. done. Qed.

Lemma nrows_set_column k c df : nrows (set_column k c df) = nrows df.
Proof. done. Qed.

(** [analyze_text_columns] returns only when [title] and [abstract] are
    columns of dtype object, and then returns the frame with the four
    columns set. *)
Lemma analyze_text_columns_inv df w w' df' :
  analyze_text_columns df w = (w', inr df') →
  ∃ titles abstracts,
    columns df !! "title" = Some (ObjectCol titles)
    ∧ columns df !! "abstract" = Some (ObjectCol abstracts)
    ∧ df' = with_derived titles abstracts df
    ∧ trace w' = trace w.
Proof.
  unfold analyze_text_columns, getitem, str.
  cbv [mbind M_bind mret M_ret print raise].
  destruct (columns df !! "title") as [[titles|?]|] eqn:Ht; try done.
  rewrite !columns_set_column, !lookup_insert_ne by done.
  destruct (columns df !! "abstract") as [[abstracts|?]|] eqn:Ha; try done.
  rewrite !columns_set_column, !lookup_insert_ne, Ht by done.
  rewrite !columns_set_column, !lookup_insert_ne, Ha by done.
  intros [= <- <-]. by exists titles, abstracts.
Qed.

Lemma analyze_text_columns_run df w titles abstracts :
  columns df !! "title" = Some (ObjectCol titles) →
  columns df !! "abstract" = Some (ObjectCol abstracts) →
  ∃ w', analyze_text_columns df w
        = (w', inr (with_derived titles abstracts df))
        ∧ trace w' = trace w.
Proof.
  intros Ht Ha. unfold analyze_text_columns, getitem, str.
  cbv [mbind M_bind mret M_ret print raise].
  rewrite Ht. rewrite !columns_set_column, !lookup_insert_ne by done.
  rewrite Ha. rewrite !columns_set_column, !lookup_insert_ne, Ht by done.
  rewrite !columns_set_column, !lookup_insert_ne, Ha by done.
  by eexists.
Qed.

End DerivedColumns.

Section ReadOnly.
Import Shared Pandas Run.

(** The other reporting functions hand back the frame they were given. *)
Lemma analyze_categorical_columns_inv df w w' df' :
  analyze_categorical_columns df w = (w', inr df') → df' = df.
Proof.
  unfold analyze_categorical_columns, getitem.
  cbv [mbind M_bind mret M_ret print raise].
  destruct (columns df !! "source"); [|done].
  destruct (columns df !! "group"); [|done].
  destruct (columns df !! "Manual"); [|done].
  by intros [= _ <-].
Qed.

Lemma analyze_pmid_column_inv df w w' df' :
  analyze_pmid_column df w = (w', inr df') → df' = df.
Proof.
  unfold analyze_pmid_column, getitem.
  cbv [mbind M_bind mret M_ret print raise].
  destruct (columns df !! "pmid"); [|done].
  by intros [= _ <-].
Qed.

Lemma statistical_summary_inv section df w w' df' :
  statistical_summary section df w = (w', inr df') → df' = df.
Proof.
  unfold statistical_summary, numerical_cols, for_each, getitem.
  cbv [mbind M_bind mret M_ret print raise].
  destruct (columns df !! "title_length"); [|done].
  destruct (columns df !! "abstract_length"); [|done].
  destruct (columns df !! "title_word_count"); [|done].
  destruct (columns df !! "abstract_word_count"); [|done].
  by intros [= _ <-].
Qed.

End ReadOnly.

(** C9. When [analyze_text_columns] returns, the frame has the rows it had
    and its columns are the columns it had together with [title_length],
    [abstract_length], [title_word_count] and [abstract_word_count]; every
    column of another name is unchanged, so every original column is
    unchanged when none bears one of the four names, as in a frame of the six
    columns of the input file.  The other functions of the reporter return
    the frame as they got it. *)
Theorem reporter_frame (df df' : Pandas.DataFrame) (w w' : Run.world) :
  Shared.analyze_text_columns df w = (w', inr df') →
  Pandas.nrows df' = Pandas.nrows df
  ∧ dom (Pandas.columns df')
    = dom (Pandas.columns df) ∪ list_to_set Shared.derived_columns
  ∧ (∀ k, k ∉ Shared.derived_columns →
          Pandas.columns df' !! k = Pandas.columns df !! k)
  ∧ ((∀ k, k ∈ Shared.derived_columns → Pandas.columns df !! k = None) →
     ∀ k c, Pandas.columns df !! k = Some c →
            Pandas.columns df' !! k = Some c)
  ∧ (∀ k, k ∈ Shared.derived_columns → is_Some (Pandas.columns df' !! k))
  ∧ (∀ d w1 w2, Shared.analyze_categorical_columns df w1 = (w2, inr d) →
                d = df)
  ∧ (∀ d w1 w2, Shared.analyze_pmid_column df w1 = (w2, inr d) → d = df)
  ∧ (∀ section d w1 w2,
        Shared.statistical_summary section df w1 = (w2, inr d) → d = df).
Proof.
  intros (titles & abstracts & Ht & Ha & -> & _)%analyze_text_columns_inv.
  assert (Hframe : ∀ k, k ∉ Shared.derived_columns →
            Pandas.columns (with_derived titles abstracts df) !! k
            = Pandas.columns df !! k).
  { intros k Hk. unfold with_derived. rewrite !columns_set_column.
    unfold Shared.derived_columns in Hk.
    rewrite !not_elem_of_cons in Hk. destruct Hk as (?&?&?&?&_).
    by rewrite !lookup_insert_ne. }
  split_and!.
  - done.
  - unfold with_derived. rewrite !columns_set_column, !dom_insert_L.
    unfold Shared.derived_columns. apply set_eq. intros k. simpl.
    rewrite !elem_of_union, !elem_of_singleton, elem_of_empty. tauto.
  - done.
  - intros Hfresh k c Hk. rewrite Hframe; [done|].
    intros Hin. apply Hfresh in Hin. congruence.
  - intros k Hk. unfold with_derived. rewrite !columns_set_column.
    unfold Shared.derived_columns in Hk. rewrite !elem_of_cons in Hk.
    destruct Hk as [->|[->|[->|[->|Hk]]]]; [..|by apply elem_of_nil in Hk];
      repeat (rewrite lookup_insert_ne by done);
      rewrite lookup_insert_eq; eauto.
  - intros d w1 w2. apply analyze_categorical_columns_inv.
  - intros d w1 w2. apply analyze_pmid_column_inv.
  - intros section d w1 w2. apply statistical_summary_inv.
Qed.

(** An instance: the sample frame keeps its rows and its [source] column. *)
Lemma reporter_frame_witness :
  ∃ df', Pandas.nrows df' = 2
         ∧ Pandas.columns df' !! "source"
           = Some (Pandas.ObjectCol [Some "pubmed"; None]).
Proof.
  destruct (analyze_text_columns_run frame_sample Run.start
              [Some "Cats and dogs"; None] [None; Some "A study of cats."]
              eq_refl eq_refl) as (w' & Hrun & _).
  destruct (reporter_frame frame_sample _ Run.start w' Hrun)
    as (Hn & _ & Hk & _).
  eexists. split; [exact Hn|]. rewrite Hk; [reflexivity|]. compute_done.
Defined.

(** ** Sequencing *)

Section Sequencing.
Import Shared Pandas Run.

Lemma quiet_ret {A} (a : A) : quiet (mret a).
Proof. done. Qed.

Lemma quiet_raise {A} e : quiet (raise (A := A) e).
Proof. done. Qed.

Lemma quiet_lift {A} (r : exn + A) : quiet (lift r).
Proof. done. Qed.

Lemma quiet_print o : quiet (print o).
Proof. done. Qed.

Lemma quiet_bind {A B} (m : M A) (k : A → M B) :
  quiet m → (∀ a, quiet (k a)) → quiet (m ≫= k).
Proof.
  intros Hm Hk w. unfold mbind, M_bind. specialize (Hm w).
  destruct (m w) as [w1 [e|a]]; [done|].
  rewrite (Hk a w1). done.
Qed.

Lemma quiet_getitem df k : quiet (getitem df k).
Proof. unfold getitem. by destruct (columns df !! k). Qed.

Lemma quiet_str c : quiet (str c).
Proof. by destruct c. Qed.

Lemma quiet_numeric c : quiet (numeric c).
Proof. destruct c as [l|l]; [|done]. simpl. by case_bool_decide. Qed.

Lemma quiet_library env site : quiet (library env site).
Proof. unfold library. by destruct (extern env site). Qed.

Lemma quiet_for_each {A} (l : list A) (body : A → M ()) :
  (∀ x, quiet (body x)) → quiet (for_each l body).
Proof.
  intros Hbody. induction l as [|x l IH]; [done|].
  simpl. apply quiet_bind; [done|]. by intros _.
Qed.

Lemma quiet_percentage count n : quiet (eda_simple.percentage count n).
Proof. by destruct n. Qed.

End Sequencing.

Create HintDb quiet.

#[local] Hint Resolve quiet_ret quiet_raise quiet_lift quiet_print
  quiet_getitem quiet_str quiet_numeric quiet_library quiet_percentage
  : quiet.
#[local] Hint Extern 2 (quiet (_ ≫= _)) =>
  apply quiet_bind; [|intros ?] : quiet.
#[local] Hint Extern 2 (quiet (Run.for_each _ _)) =>
  apply quiet_for_each; intros ? : quiet.
#[local] Hint Extern 3 (quiet (match ?x with _ => _ end)) =>
  destruct x : quiet.

Ltac solve_quiet := cbv zeta; eauto 80 with quiet.

Section Stages.
Import Shared Pandas Run.

Lemma quiet_load env : quiet (load_and_examine_data env).
Proof. unfold load_and_examine_data. solve_quiet. Qed.

Lemma quiet_analyze_text_columns df : quiet (analyze_text_columns df).
Proof. unfold analyze_text_columns. solve_quiet. Qed.

Lemma quiet_analyze_categorical_columns df :
  quiet (analyze_categorical_columns df).
Proof. unfold analyze_categorical_columns. solve_quiet. Qed.

Lemma quiet_analyze_pmid_column df : quiet (analyze_pmid_column df).
Proof. unfold analyze_pmid_column. solve_quiet. Qed.

Lemma quiet_create_visualizations env df :
  quiet (create_visualizations env df).
Proof. unfold create_visualizations. solve_quiet. Qed.

Lemma quiet_corpus df : quiet (corpus df).
Proof. unfold corpus. solve_quiet. Qed.

Lemma quiet_print_top c : quiet (print_top c).
Proof. unfold print_top. solve_quiet. Qed.

Lemma quiet_statistical_summary section df :
  quiet (statistical_summary section df).
Proof. unfold statistical_summary. solve_quiet. Qed.

Lemma quiet_simple_text_analysis df : quiet (eda_simple.text_analysis df).
Proof.
  unfold eda_simple.text_analysis.
  pose proof quiet_corpus. pose proof quiet_print_top. solve_quiet.
Qed.

Lemma quiet_create_summary_report df :
  quiet (eda_simple.create_summary_report df).
Proof. unfold eda_simple.create_summary_report. solve_quiet. Qed.

Lemma quiet_complete_text_analysis stop lemmatize df :
  quiet (eda_complete_dataset.text_analysis stop lemmatize df).
Proof.
  unfold eda_complete_dataset.text_analysis.
  pose proof quiet_corpus. pose proof quiet_print_top. solve_quiet.
Qed.

Lemma quiet_generate_wordcloud env df :
  quiet (eda_complete_dataset.generate_wordcloud env df).
Proof.
  unfold eda_complete_dataset.generate_wordcloud.
  pose proof quiet_corpus. solve_quiet.
Qed.

End Stages.

(** ** The order of the calls of [main] *)

Section Order.
Import Shared Pandas Run.

Lemma events_cons f fs : events (f :: fs) = Enter f :: Exit f :: events fs.
Proof. done. Qed.

Lemma follows_quiet {A} (m : M A) : quiet m → follows [] m.
Proof.
  intros Hm w. exists []. rewrite (Hm w), (right_id_L [] (++)). done.
Qed.

(** A call to [f] whose body makes no call, then what follows it. *)
Lemma follows_call_bind {A B} f fs (body : M A) (k : A → M B) :
  quiet body → (∀ a, follows fs (k a)) →
  follows (f :: fs) (call f body ≫= k).
Proof.
  intros Hbody Hk w. unfold call, log. cbv [mbind M_bind mret M_ret].
  specialize (Hbody (World (stdout w) (trace w ++ [Enter f]))).
  destruct (body _) as [w1 [e|a]]; simpl in *.
  - exists [Enter f]. rewrite Hbody. split_and!; [done| |done].
    by exists (Exit f :: events fs).
  - specialize (Hk a (World (stdout w1) (trace w1 ++ [Exit f]))).
    destruct Hk as (tr & Htr & Hpre & Hret). simpl in Htr.
    rewrite Hbody in *.
    exists (Enter f :: Exit f :: tr). rewrite Htr.
    split_and!.
    + by rewrite <- !(assoc_L (++)).
    + by do 2 apply prefix_cons.
    + intros b Hb. by rewrite (Hret b Hb).
Qed.

Lemma follows_simple_try_block env :
  follows simple_calls (eda_simple.try_block env).
Proof.
  unfold eda_simple.try_block, eda_simple.statistical_summary, simple_calls.
  pose proof quiet_load. pose proof quiet_analyze_text_columns.
  pose proof quiet_analyze_categorical_columns.
  pose proof quiet_analyze_pmid_column.
  pose proof quiet_create_visualizations.
  pose proof quiet_simple_text_analysis.
  pose proof quiet_statistical_summary.
  pose proof quiet_create_summary_report.
  repeat (apply follows_call_bind; [done|intros ?]).
  apply follows_quiet. solve_quiet.
Qed.

Lemma follows_complete_try_block stop lemmatize env :
  follows complete_calls (eda_complete_dataset.try_block stop lemmatize env).
Proof.
  unfold eda_complete_dataset.try_block,
    eda_complete_dataset.statistical_summary, complete_calls.
  pose proof quiet_load. pose proof quiet_analyze_text_columns.
  pose proof quiet_analyze_categorical_columns.
  pose proof quiet_analyze_pmid_column.
  pose proof quiet_create_visualizations.
  pose proof quiet_complete_text_analysis.
  pose proof quiet_statistical_summary.
  pose proof quiet_generate_wordcloud.
  repeat (apply follows_call_bind; [done|intros ?]).
  apply follows_quiet. solve_quiet.
Qed.

(** The handler of [main] adds no call. *)
Lemma trace_try_except body handler w :
  (∀ e, quiet (handler e)) →
  trace (try_except body handler w).1 = trace (body w).1.
Proof.
  intros Hh. unfold try_except.
  destruct (body w) as [w1 [e|[]]]; [|done]. apply Hh.
Qed.

End Order.

(** C3, as the claim has it, fails: in a run of [eda_simple] on a frame of
    two full records the charts are drawn before the text frequency pipeline
    runs, and the statistical summary comes after both. *)
Lemma calls_out_of_claimed_order :
  ¬ claimed_order
      (Run.trace (eda_simple.main (env_of frame_full) Run.start).1).
Proof. unfold claimed_order. compute_done. Qed.

(** C3, amended.  In every run the calls of [main] are, in this order,
    [load_and_examine_data], [analyze_text_columns],
    [analyze_categorical_columns], [analyze_pmid_column],
    [create_visualizations], [text_analysis], then in [eda_simple]
    [statistical_summary] and [create_summary_report], and in
    [eda_complete_dataset] [generate_wordcloud] and [statistical_summary];
    each returns before the next is entered.  A run that raises stops there:
    its trace is a part of that sequence from the start. *)
Theorem main_order (env : Run.Env) :
  (let tr := Run.trace (eda_simple.main env Run.start).1 in
   tr `prefix_of` events simple_calls
   ∧ ((eda_simple.try_block env Run.start).2 = inr () →
      tr = events simple_calls))
  ∧ ∀ stop lemmatize,
      let tr :=
        Run.trace (eda_complete_dataset.main stop lemmatize env Run.start).1
      in
      tr `prefix_of` events complete_calls
      ∧ ((eda_complete_dataset.try_block stop lemmatize env Run.start).2
         = inr () →
         tr = events complete_calls).
Proof.
  split; [|intros stop lemmatize]; cbv zeta.
  - unfold eda_simple.main. rewrite trace_try_except by (intros; solve_quiet).
    destruct (follows_simple_try_block env Run.start)
      as (tr & -> & Hpre & Hret).
    split; [done|]. intros Hok. by rewrite (Hret () Hok).
  - unfold eda_complete_dataset.main.
    rewrite trace_try_except by (intros; solve_quiet).
    destruct (follows_complete_try_block stop lemmatize env Run.start)
      as (tr & -> & Hpre & Hret).
    split; [done|]. intros Hok. by rewrite (Hret () Hok).
Qed.

(** An instance: the run on the frame of two full records makes all the
    calls. *)
Lemma main_order_witness :
  Run.trace (eda_simple.main (env_of frame_full) Run.start).1
  = events simple_calls.
Proof.
  destruct (main_order (env_of frame_full)) as [[_ Hfull] _].
  apply Hfull. vm_compute. reflexivity.
Defined.

(** ** The percentage division *)

Section Division.
Import Shared Pandas Run.

Lemma never_raises_ret {A} e (a : A) : never_raises e (mret a).
Proof. done. Qed.

Lemma never_raises_print e o : never_raises e (print o).
Proof. done. Qed.

Lemma never_raises_bind {A B} e (m : M A) (k : A → M B) :
  never_raises e m → (∀ a, never_raises e (k a)) →
  never_raises e (m ≫= k).
Proof.
  intros Hm Hk w. unfold mbind, M_bind. specialize (Hm w).
  destruct (m w) as [w1 [e'|a]]; [|apply Hk].
  simpl in *. congruence.
Qed.

(** [df[k]] raises a [KeyError] only, and otherwise gives the column. *)
Lemma never_raises_getitem_bind {B} e df k (f : column → M B) :
  e ≠ KeyError k →
  (∀ c, columns df !! k = Some c → never_raises e (f c)) →
  never_raises e (getitem df k ≫= f).
Proof.
  intros He Hf w. unfold mbind, M_bind, getitem.
  destruct (columns df !! k) as [c|] eqn:Hc; simpl; [by apply Hf|].
  congruence.
Qed.

Lemma never_raises_numeric c : never_raises ZeroDivisionError (numeric c).
Proof. destruct c as [l|l]; [|done]. simpl. by case_bool_decide. Qed.

Lemma never_raises_for_each {A} e (l : list A) (body : A → M ()) :
  (∀ x, never_raises e (body x)) → never_raises e (for_each l body).
Proof.
  intros Hbody. induction l as [|x l IH]; [done|].
  simpl. apply never_raises_bind; [done|]. by intros _.
Qed.

(** A frame without rows has nothing to count. *)
Lemma value_counts_empty df k c :
  wf df → nrows df = 0 → columns df !! k = Some c → value_counts c = [].
Proof.
  intros Hwf Hn Hc. specialize (Hwf k c Hc). rewrite Hn in Hwf.
  apply nil_length_inv in Hwf. unfold value_counts. by rewrite Hwf.
Qed.

(** The division of the breakdown loops is reached only when there are
    rows. *)
Lemma never_raises_breakdown df k c rows :
  wf df → columns df !! k = Some c →
  (value_counts c = [] → rows = []) →
  never_raises ZeroDivisionError
    (for_each rows
       (λ kc, p ← eda_simple.percentage kc.2 (nrows df);
              print (Share kc.1 kc.2 p))).
Proof.
  intros Hwf Hc Hrows. destruct (nrows df) as [|n] eqn:Hn.
  - rewrite Hrows; [done|]. by eapply value_counts_empty.
  - apply never_raises_for_each. intros kc.
    apply never_raises_bind; [done|]. intros p. apply never_raises_print.
Qed.

(** [create_summary_report] never divides by zero. *)
Lemma create_summary_report_division df :
  wf df → never_raises ZeroDivisionError (eda_simple.create_summary_report df).
Proof.
  intros Hwf. unfold eda_simple.create_summary_report. cbv zeta.
  repeat first
    [ apply never_raises_getitem_bind; [done|intros ? ?]
    | apply never_raises_bind; [apply never_raises_print|intros ?]
    | apply never_raises_bind; [apply never_raises_numeric|intros ?] ].
  apply never_raises_bind; [by eapply never_raises_breakdown|intros _].
  repeat first
    [ apply never_raises_getitem_bind; [done|intros ? ?]
    | apply never_raises_bind; [apply never_raises_print|intros ?] ].
  apply never_raises_bind.
  { eapply never_raises_breakdown; [done..|]. by intros ->. }
  intros _.
  apply never_raises_bind; [apply never_raises_print|intros ?].
  apply never_raises_bind; [|intros ?; apply never_raises_ret].
  apply never_raises_for_each. intros k.
  by destruct (_ !! k).
Qed.

End Division.

(** C6. On the empty dataset [eda_simple] runs to the end without an
    exception, the plotting calls apart: every count reported is zero, the
    tables of counts are empty, no ranked entry and no percentage line is
    printed.  The text frequency pipeline of either script reports empty raw
    and filtered ranked lists.  The division of the summary report is not
    reached; it raises in no frame whose columns have the length of the
    index. *)
Theorem empty_dataset_report :
  (let run := eda_simple.try_block (env_of empty_dataset) Run.start in
   run.2 = inr ()
   ∧ forallb zero_report (Run.stdout run.1) = true
   ∧ Run.stdout (eda_simple.main (env_of empty_dataset) Run.start).1
     = Run.stdout run.1)
  ∧ (∀ stop lemmatize,
      let run :=
        eda_complete_dataset.text_analysis stop lemmatize empty_dataset
          Run.start in
      run.2 = inr empty_dataset
      ∧ forallb zero_report (Run.stdout run.1) = true)
  ∧ (Shared.corpus empty_dataset Run.start = (Run.start, inr "")
     ∧ Counter.most_common 20 (eda_simple.word_counts "") = []
     ∧ Counter.most_common 20 (eda_simple.filtered_word_counts "") = []
     ∧ ∀ stop lemmatize,
         Counter.most_common 20
           (eda_complete_dataset.filtered_word_counts stop lemmatize "") = [])
  ∧ ∀ df w, Pandas.wf df →
            (eda_simple.create_summary_report df w).2
            ≠ inl Run.ZeroDivisionError.
Proof.
  split; [|split; [|split]].
  - cbv zeta. split_and!; vm_compute; reflexivity.
  - intros stop lemmatize. cbv zeta. split; vm_compute; reflexivity.
  - split_and!; vm_compute; reflexivity.
  - intros df w Hwf. by apply create_summary_report_division.
Qed.

Lemma empty_dataset_wf : Pandas.wf empty_dataset.
Proof.
  intros k c Hk. apply elem_of_list_to_map_2 in Hk.
  repeat (apply elem_of_cons in Hk as [[= -> ->]|Hk]; [reflexivity|]).
  by apply elem_of_nil in Hk.
Qed.

(** An instance: the summary report of the empty dataset. *)
Lemma empty_dataset_report_witness :
  (eda_simple.create_summary_report empty_dataset Run.start).2
  ≠ inl Run.ZeroDivisionError.
Proof.
  destruct empty_dataset_report as (_ & _ & _ & Hdiv).
  apply (Hdiv empty_dataset Run.start empty_dataset_wf).
Defined.


(** * Further properties of the scripts *)

(** ** The tokens of a corpus *)

Section TokenShape.
Import Text.

Lemma lower_char_fixed_not_upper c :
  lower_char c = c → between 65 90 (code c) = false.
Proof. by destruct c as [[] [] [] [] [] [] [] []]. Qed.

Lemma lower_word_chars t :
  all_chars is_word t = true → lower t = t →
  all_chars is_lower_word t = true.
Proof.
  induction t as [|c t IH]; [done|]. simpl.
  intros [Hc Ht]%andb_true_iff [= Hlc Hlt].
  unfold is_lower_word. rewrite Hc, (lower_char_fixed_not_upper c Hlc).
  simpl. by apply IH.
Qed.

Lemma length_snoc (cur : string) c :
  String.length (cur +:+ String c "") = S (String.length cur).
Proof. induction cur as [|d cur IH]; [done|]. rewrite app_cons. simpl. by rewrite IH. Qed.

Lemma length_emit cur :
  sum_list (String.length <$> emit cur) = String.length cur.
Proof. destruct cur; simpl; lia. Qed.

(** The runs of a text are parts of it: together they are no longer. *)
Lemma runs_from_length p cur s :
  sum_list (String.length <$> runs_from p cur s)
  ≤ String.length cur + String.length s.
Proof.
  revert cur. induction s as [|c s IH]; intros cur; simpl.
  - rewrite length_emit. lia.
  - destruct (p c).
    + specialize (IH (cur +:+ String c "")). rewrite length_snoc in IH. lia.
    + rewrite fmap_app, sum_list_with_app, length_emit.
      specialize (IH ""). simpl in IH. lia.
Qed.

(** There are no more runs than characters. *)
Lemma runs_from_count p cur s :
  length (runs_from p cur s) ≤ length (emit cur) + String.length s.
Proof.
  revert cur. induction s as [|c s IH]; intros cur; simpl; [lia|].
  destruct (p c).
  - specialize (IH (cur +:+ String c "")).
    rewrite (emit_nonempty _ (snoc_nonempty cur c)) in IH. simpl in IH.
    destruct cur; simpl; lia.
  - rewrite length_app. specialize (IH ""). simpl in IH. lia.
Qed.

End TokenShape.


(** ** The tables of counts *)

Section TableFacts.
Context {K : Type} `{EqDecision K}.
Import Counter Spec.
Implicit Types (l : list K) (k : K).

Lemma occurrences_zero k l : occurrences k l = 0 ↔ k ∉ l.
Proof.
  induction l as [|x l IH]; rewrite ?occurrences_cons.
  - split; [intros _; apply not_elem_of_nil|done].
  - rewrite not_elem_of_cons, <- IH. case_decide.
    + split; [lia|]. by intros [? _].
    + split; [intros Hz; split; [congruence|lia]|intros [_ Hz]; lia].
Qed.

Lemma occurrences_filter (P : K → Prop) `{∀ x, Decision (P x)} k l :
  occurrences k (filter P l) = if decide (P k) then occurrences k l else 0.
Proof.
  induction l as [|x l IH]; [by case_decide|].
  rewrite filter_cons. destruct (decide (P x)) as [Hx|Hx];
    rewrite ?occurrences_cons, IH;
    destruct (decide (x = k)) as [->|Hne]; repeat case_decide; done || lia.
Qed.

Lemma length_keys (c : Counter.t (K := K)) : length (keys c) = length c.
Proof. unfold keys. by rewrite length_fmap. Qed.

(** A counter has no more keys than the stream has elements. *)
Lemma length_of_list_le l : length (of_list l) ≤ length l.
Proof.
  induction l as [|x l IH] using rev_ind; [done|].
  rewrite <- length_keys, of_list_snoc, keys_incr, length_app.
  rewrite <- length_keys in IH.
  case_decide; rewrite ?length_app; simpl; lia.
Qed.

(** Every count of a counter built from a stream is positive. *)
Lemma of_list_positive l (a : K * nat) : a ∈ of_list l → 0 < a.2.
Proof.
  intros Ha. pose proof (of_list_entries l) as He.
  rewrite Forall_forall in He. destruct (He a Ha) as [Hin ->].
  destruct (occurrences a.1 l) eqn:Hz; [|lia].
  by apply occurrences_zero in Hz.
Qed.

(** What [most_common n] leaves out is ranked after all it reports. *)
Lemma most_common_top n l k a :
  k ∈ l → k ∉ (most_common n (of_list l)).*1 →
  a ∈ most_common n (of_list l) →
  before l a (k, occurrences k l).
Proof.
  intros Hk Hout Ha. unfold most_common in *.
  assert (Hs : StronglySorted (before l) (sorted_desc (of_list l))).
  { apply sorted_desc_sorted.
    apply (StronglySorted_unfmap fst (λ a b, index_of a l < index_of b l)).
    apply keys_of_list_first_seen. }
  rewrite <- (take_drop n (sorted_desc (of_list l))) in Hs.
  eapply StronglySorted_app_1_elem_of; [exact Hs|done|].
  apply elem_of_keys_of_list in Hk.
  apply list_elem_of_fmap in Hk as ([k' c] & -> & Hin). simpl in *.
  pose proof (of_list_entries l) as He. rewrite Forall_forall in He.
  destruct (He _ Hin) as [_ Hc]. simpl in Hc. subst c.
  rewrite <- (sorted_desc_perm (of_list l)) in Hin.
  rewrite <- (take_drop n (sorted_desc (of_list l))) in Hin.
  apply elem_of_app in Hin as [Hin|Hin]; [|done].
  destruct Hout. apply list_elem_of_fmap.
  by exists (k', occurrences k' l).
Qed.

Lemma length_most_common n l :
  length (most_common n (of_list l)) = n `min` length (of_list l).
Proof.
  unfold most_common. by rewrite length_take, sorted_desc_perm.
Qed.

End TableFacts.

(** X2. The raw table of [text_analysis] maps every token to its number of
    occurrences in the token stream and every other word to zero; it holds
    each token once, and its counts add up to the number of tokens. *)
Theorem word_counts_spec (all_text w : string) :
  let c := eda_simple.word_counts all_text in
  let words := Shared.words_of all_text in
  Counter.get c w = Spec.occurrences w words
  ∧ (w ∈ Counter.keys c ↔ w ∈ words)
  ∧ (Counter.get c w = 0 ↔ w ∉ words)
  ∧ NoDup (Counter.keys c)
  ∧ Counter.total c = length words
  ∧ length c ≤ length words.
Proof.
  cbv zeta. unfold eda_simple.word_counts. split_and!.
  - apply get_of_list.
  - apply elem_of_keys_of_list.
  - rewrite get_of_list. apply occurrences_zero.
  - apply NoDup_keys_of_list.
  - apply total_of_list.
  - apply length_of_list_le.
Qed.

(** X3. The list [text_analysis] reports is the head of the ranking: it has
    20 entries, or as many as there are distinct tokens when these are
    fewer, and a token left out is ranked after every token reported (its
    count is no greater, and at equal counts it occurs later).  This holds
    of the raw list and of the filtered lists of both scripts. *)
Theorem top20_is_top (all_text : string) :
  let words := Shared.words_of all_text in
  (∀ stream : list string,
      let top := Counter.most_common 20 (Counter.of_list stream) in
      length top = 20 `min` length (Counter.of_list stream)
      ∧ ∀ w a, w ∈ stream → w ∉ top.*1 → a ∈ top →
               Spec.before stream a (w, Spec.occurrences w stream))
  ∧ eda_simple.word_counts all_text = Counter.of_list words
  ∧ eda_simple.filtered_word_counts all_text
    = Counter.of_list (filter (meaningful eda_simple.common_words) words)
  ∧ ∀ stop lemmatize,
      eda_complete_dataset.filtered_word_counts stop lemmatize all_text
      = Counter.of_list (lemmatize <$> filter (meaningful stop) words).
Proof.
  cbv zeta. split_and!.
  - intros stream. split; [apply length_most_common|].
    intros w a. apply most_common_top.
  - done.
  - unfold eda_simple.filtered_word_counts,
      eda_simple.filtered_word_counts_with.
    by rewrite simple_filtered_stream.
  - intros stop lemmatize.
    unfold eda_complete_dataset.filtered_word_counts.
    rewrite complete_filter_loop. simpl. f_equal.
    apply Forall_fmap_ext_1, Forall_forall.
    intros t [_ Ht]%list_elem_of_filter.
    pose proof (findall_words_lower all_text) as Hfix.
    rewrite Forall_forall in Hfix. by rewrite (Hfix t Ht).
Qed.

(** An instance: of twenty-one distinct words the last is left out. *)
Lemma top20_is_top_witness :
  Spec.before alphabet_stream ("a", 1)
    ("u", Spec.occurrences "u" alphabet_stream).
Proof.
  destruct (top20_is_top "") as [Htop _].
  destruct (Htop alphabet_stream) as [_ Hout].
  apply Hout; compute_done.
Defined.

(** X4. In [eda_simple] the filter decides word by word: a word that is not
    a common word and is longer than two characters keeps its raw count in
    the filtered table, every other word has count zero there. *)
Theorem simple_filtered_exact (all_text w : string) :
  Counter.get (eda_simple.filtered_word_counts all_text) w
  = if decide ((w ∉ eda_simple.common_words) ∧ 2 < Text.len w)
    then Counter.get (eda_simple.word_counts all_text) w
    else 0.
Proof.
  unfold eda_simple.filtered_word_counts.
  rewrite simple_filtered_get, occurrences_filter.
  unfold eda_simple.word_counts. rewrite get_of_list.
  destruct (decide (w ∈ Shared.words_of all_text)) as [Hin|Hout].
  - pose proof (findall_words_lower all_text) as Hfix.
    rewrite Forall_forall in Hfix. specialize (Hfix w Hin).
    destruct (decide (meaningful eda_simple.common_words w)) as [[H1 H2]|Hn];
      destruct (decide ((w ∉ eda_simple.common_words) ∧ 2 < Text.len w))
        as [[H3 H4]|Hn']; try done.
    + destruct Hn'. rewrite Hfix in H1. by split.
    + destruct Hn. split; [by rewrite Hfix|done].
  - apply occurrences_zero in Hout. rewrite Hout. by repeat case_decide.
Qed.

(** X5. Each filtered table adds up to the number of words that pass the
    filter, which is at most the number of tokens, the total of the raw
    table.  Lemmatizing moves counts between keys and keeps the total: with
    the same stopword set the filtered tables of the two scripts have the
    same total. *)
Theorem filtered_totals (all_text : string) :
  let words := Shared.words_of all_text in
  (∀ stop,
      Counter.total (eda_simple.filtered_word_counts_with stop all_text)
      = length (filter (meaningful stop) words))
  ∧ (∀ stop lemmatize,
      Counter.total
        (eda_complete_dataset.filtered_word_counts stop lemmatize all_text)
      = length (filter (meaningful stop) words))
  ∧ (∀ stop, length (filter (meaningful stop) words)
             ≤ Counter.total (eda_simple.word_counts all_text))
  ∧ Counter.total (eda_complete_dataset.word_counts all_text) = length words.
Proof.
  cbv zeta. split_and!.
  - intros stop. unfold eda_simple.filtered_word_counts_with.
    by rewrite total_of_list, simple_filtered_stream.
  - intros stop lemmatize. unfold eda_complete_dataset.filtered_word_counts.
    rewrite total_of_list, complete_filter_loop. simpl.
    by rewrite length_fmap.
  - intros stop. unfold eda_simple.word_counts. rewrite total_of_list.
    apply length_filter.
  - apply total_of_list.
Qed.

(** ** Counting over the records *)

Section Records.
Import Shared Pandas.

(** The tokens of the corpus are the tokens of the fields, record by
    record: joining by spaces neither merges nor splits a token. *)
Lemma words_of_rows (titles abstracts : list string) :
  words_of (Text.join " " (zip_with (λ t a, t +:+ " " +:+ a) titles abstracts))
  = concat (zip_with (λ t a, words_of t ++ words_of a) titles abstracts).
Proof.
  rewrite words_of_join. f_equal. revert abstracts.
  induction titles as [|t ts IH]; intros [|a abstracts]; try done.
  cbn [zip_with]. by rewrite fmap_cons, words_of_app_space, IH.
Qed.

Lemma occurrences_rows w (titles abstracts : list string) :
  length titles = length abstracts →
  Spec.occurrences w
    (concat (zip_with (λ t a, words_of t ++ words_of a) titles abstracts))
  = occurrences_in w titles + occurrences_in w abstracts.
Proof.
  rewrite occurrences_concat. unfold occurrences_in. revert abstracts.
  induction titles as [|t ts IH]; intros [|a abstracts] Hlen; try done.
  simpl in Hlen. injection Hlen as Hlen.
  cbn [zip_with]. rewrite !fmap_cons.
  change (sum_list (?x :: ?l)) with (x + sum_list l).
  rewrite IH by done. rewrite occurrences_app. lia.
Qed.

End Records.

(** X6. Counts are additive over the records: the raw count of a word is
    the sum, over all records, of its occurrences among the tokens of the
    title and of the abstract, each converted to text. *)
Theorem counts_additive (df : Pandas.DataFrame)
    (title abstract : Pandas.column) (w : string) :
  Pandas.wf df →
  Pandas.columns df !! "title" = Some title →
  Pandas.columns df !! "abstract" = Some abstract →
  ∃ all_text,
    Shared.corpus df Run.start = (Run.start, inr all_text)
    ∧ Counter.get (eda_simple.word_counts all_text) w
      = occurrences_in w (Pandas.astype_str title)
        + occurrences_in w (Pandas.astype_str abstract).
Proof.
  intros Hwf Ht Ha. eexists. split.
  { unfold Shared.corpus, Run.getitem. cbv [mbind Run.M_bind].
    rewrite Ht, Ha. reflexivity. }
  unfold eda_simple.word_counts.
  rewrite get_of_list, words_of_rows, occurrences_rows; [done|].
  rewrite !length_astype_str. by rewrite (Hwf _ _ Ht), (Hwf _ _ Ha).
Qed.

(** An instance: [cats] in the sample frame. *)
Lemma counts_additive_witness :
  ∃ all_text,
    Shared.corpus frame_sample Run.start = (Run.start, inr all_text)
    ∧ Counter.get (eda_simple.word_counts all_text) "cats" = 1 + 1.
Proof.
  apply (counts_additive frame_sample
           (Pandas.ObjectCol [Some "Cats and dogs"; None])
           (Pandas.ObjectCol [None; Some "A study of cats."])
           "cats" frame_sample_wf eq_refl eq_refl).
Defined.


(** ** The derived columns, row by row *)

Section DerivedValues.
Import Shared Pandas Run.

Lemma length_split_le s : length (Text.split s) ≤ Text.len s.
Proof.
  unfold Text.split, Text.runs. etransitivity; [apply runs_from_count|done].
Qed.

Lemma str_len_within l :
  Forall2 (within (λ s, Z.of_nat (Text.len s))) l (str_len l).
Proof.
  unfold str_len. induction l as [|[s|] l IH]; csimpl; constructor;
    try done. simpl. lia.
Qed.

Lemma str_split_len_within l :
  Forall2 (within (λ s, Z.of_nat (Text.len s))) l (str_split_len l).
Proof.
  unfold str_split_len. induction l as [|[s|] l IH]; csimpl; constructor;
    try done. simpl. pose proof (length_split_le s). lia.
Qed.

Lemma isnull_sum_within bound l ns :
  Forall2 (within bound) l ns →
  isnull_sum (NumCol ns) = isnull_sum (ObjectCol l).
Proof.
  unfold isnull_sum, cells.
  intros H. induction H as [|x y l ns Hw Hl IH]; [done|].
  destruct x as [s|], y as [n|]; try done; rewrite !fmap_cons.
  change (Int <$> None) with (@None scalar).
  change (Str <$> None) with (@None scalar).
  rewrite !filter_cons_True by done. simpl. by rewrite IH.
Qed.

Lemma wf_set_column k c df :
  wf df → length (cells c) = nrows df → wf (set_column k c df).
Proof.
  intros Hwf Hc k' c'. rewrite columns_set_column, nrows_set_column.
  rewrite lookup_insert. case_decide; [by intros [= <-]|apply Hwf].
Qed.

Lemma wf_with_derived titles abstracts df :
  wf df →
  columns df !! "title" = Some (ObjectCol titles) →
  columns df !! "abstract" = Some (ObjectCol abstracts) →
  wf (with_derived titles abstracts df).
Proof.
  intros Hwf Ht Ha. pose proof (Hwf _ _ Ht) as Lt.
  pose proof (Hwf _ _ Ha) as La. simpl in Lt, La.
  rewrite length_fmap in Lt, La.
  unfold with_derived.
  repeat (apply wf_set_column;
          [|simpl; unfold str_len, str_split_len; by rewrite !length_fmap]).
  done.
Qed.

Lemma lookup_with_derived titles abstracts df :
  let df' := with_derived titles abstracts df in
  columns df' !! "title_length" = Some (NumCol (str_len titles))
  ∧ columns df' !! "abstract_length" = Some (NumCol (str_len abstracts))
  ∧ columns df' !! "title_word_count" = Some (NumCol (str_split_len titles))
  ∧ columns df' !! "abstract_word_count"
    = Some (NumCol (str_split_len abstracts)).
Proof.
  cbv zeta. unfold with_derived. rewrite !columns_set_column.
  split_and!; repeat (rewrite lookup_insert_ne by done);
    by rewrite lookup_insert_eq.
Qed.

Lemma lookup_with_derived_other titles abstracts df k :
  k ∉ derived_columns →
  columns (with_derived titles abstracts df) !! k = columns df !! k.
Proof.
  intros Hk. unfold with_derived. rewrite !columns_set_column.
  unfold derived_columns in Hk.
  rewrite !not_elem_of_cons in Hk. destruct Hk as (?&?&?&?&_).
  by rewrite !lookup_insert_ne.
Qed.

End DerivedValues.




(** ** How [analyze_text_columns] fails *)

(** X8. [analyze_text_columns] returns exactly when [title] and [abstract]
    are columns of dtype object.  It raises [KeyError] for [title] when that
    column is absent and [AttributeError] when it is numeric; with a title of
    dtype object it raises the same two for [abstract]. *)
Theorem text_columns_errors (df : Pandas.DataFrame) (w : Run.world) :
  let result := (Shared.analyze_text_columns df w).2 in
  (Pandas.columns df !! "title" = None →
   result = inl (Run.KeyError "title"))
  ∧ (∀ l, Pandas.columns df !! "title" = Some (Pandas.NumCol l) →
          result = inl (Run.AttributeError str_accessor_message))
  ∧ (∀ t, Pandas.columns df !! "title" = Some (Pandas.ObjectCol t) →
          Pandas.columns df !! "abstract" = None →
          result = inl (Run.KeyError "abstract"))
  ∧ (∀ t l, Pandas.columns df !! "title" = Some (Pandas.ObjectCol t) →
            Pandas.columns df !! "abstract" = Some (Pandas.NumCol l) →
            result = inl (Run.AttributeError str_accessor_message))
  ∧ ((∃ df', result = inr df')
     ↔ ∃ t a, Pandas.columns df !! "title" = Some (Pandas.ObjectCol t)
              ∧ Pandas.columns df !! "abstract"
                = Some (Pandas.ObjectCol a)).
Proof.
  cbv zeta. unfold Shared.analyze_text_columns, Run.getitem, Run.str.
  cbv [mbind Run.M_bind mret Run.M_ret Run.print Run.raise].
  destruct (Pandas.columns df !! "title") as [[t|l]|] eqn:Ht.
  2:{ simpl. split_and!; try done. split; [by intros [? ?]|].
      by intros (? & ? & ? & _). }
  2:{ simpl. split_and!; try done. split; [by intros [? ?]|].
      by intros (? & ? & ? & _). }
  rewrite !columns_set_column, !lookup_insert_ne by done.
  destruct (Pandas.columns df !! "abstract") as [[a|l]|] eqn:Ha.
  2:{ simpl. split_and!; try done. split; [by intros [? ?]|].
      by intros (? & ? & _ & ?). }
  2:{ simpl. split_and!; try done. split; [by intros [? ?]|].
      by intros (? & ? & _ & ?). }
  rewrite !columns_set_column, !lookup_insert_ne, Ht by done.
  rewrite !columns_set_column, !lookup_insert_ne, Ha by done.
  simpl. split_and!; try done. split; [|by eexists]. intros _. by exists t, a.
Qed.

(** An instance: a numeric title column. *)
Lemma text_columns_errors_witness :
  (Shared.analyze_text_columns frame_numeric_title Run.start).2
  = inl (Run.AttributeError str_accessor_message).
Proof.
  destruct (text_columns_errors frame_numeric_title Run.start)
    as (_ & Hnum & _).
  exact (Hnum [Some 2024%Z] eq_refl).
Defined.

(** ** Identifiers and categories *)

Section Distinct.
Import Counter Spec Shared Pandas Run.

(** [nunique] and the missing cells fit in the column. *)
Lemma nunique_isnull_le (c : column) :
  nunique c + isnull_sum c ≤ length (cells c).
Proof.
  unfold nunique, isnull_sum.
  pose proof (length_of_list_le (present (cells c))).
  pose proof (length_present_isnull (cells c)). lia.
Qed.

Lemma analyze_pmid_column_run df w pmid :
  columns df !! "pmid" = Some pmid →
  analyze_pmid_column df w
  = (World
       (stdout w ++
        [Line "9. PMID ANALYSIS";
         Number "Number of unique PMIDs" (Z.of_nat (nunique pmid));
         Number "Total rows" (Z.of_nat (nrows df));
         Number "Duplicate PMIDs"
           (Z.of_nat (nrows df) - Z.of_nat (nunique pmid));
         Number "Missing PMIDs" (Z.of_nat (isnull_sum pmid))])
       (trace w), inr df).
Proof.
  intros Hp. unfold analyze_pmid_column, getitem. rewrite Hp.
  cbv [mbind M_bind mret M_ret print stdout trace].
  by rewrite <- !(assoc_L (++)).
Qed.

Lemma elem_of_present {A} (x : A) (l : list (option A)) :
  x ∈ present l ↔ Some x ∈ l.
Proof.
  unfold present. rewrite list_elem_of_omap. split.
  - by intros ([y|] & Hy & [= ->]).
  - intros Hx. by exists (Some x).
Qed.

Lemma occurrences_present {A} `{EqDecision A} (k : A) (l : list (option A)) :
  occurrences k (present l) = occurrences (Some k) l.
Proof.
  unfold present. induction l as [|[x|] xs IH]; [done|..]; csimpl;
    rewrite !occurrences_cons, IH.
  - destruct (decide (x = k)) as [->|Hne];
      [by rewrite decide_True|by rewrite decide_False by congruence].
  - by rewrite decide_False by done.
Qed.

Lemma sorted_desc_descending {K} (c : Counter.t (K := K)) :
  StronglySorted (λ a b, b.2 ≤ a.2) (sorted_desc c).
Proof.
  induction c as [|x c IH]; [constructor|].
  unfold sorted_desc in *. simpl. revert IH.
  generalize (foldr insert_desc [] c). intros s Hs.
  induction Hs as [|y s Hs IHs Hy]; simpl; [repeat constructor|].
  destruct (Nat.ltb_spec x.2 y.2) as [Hlt|Hge].
  - constructor; [done|]. rewrite insert_desc_perm.
    constructor; [lia|done].
  - constructor; [by constructor|]. constructor; [done|].
    eapply Forall_impl; [exact Hy|]. simpl. intros z Hz. lia.
Qed.

End Distinct.

(** X9. [analyze_pmid_column] reports the distinct identifiers, the rows,
    their difference as duplicates, and the missing identifiers.  The
    distinct and the missing identifiers together are at most the rows, so
    the duplicates reported are never negative and count every missing
    identifier. *)
Theorem pmid_report (df : Pandas.DataFrame) (pmid : Pandas.column)
    (w : Run.world) :
  Pandas.wf df →
  Pandas.columns df !! "pmid" = Some pmid →
  let unique := Z.of_nat (Pandas.nunique pmid) in
  let rows := Z.of_nat (Pandas.nrows df) in
  let missing := Z.of_nat (Pandas.isnull_sum pmid) in
  Shared.analyze_pmid_column df w
  = (Run.World
       (Run.stdout w ++
        [Run.Line "9. PMID ANALYSIS";
         Run.Number "Number of unique PMIDs" unique;
         Run.Number "Total rows" rows;
         Run.Number "Duplicate PMIDs" (rows - unique);
         Run.Number "Missing PMIDs" missing])
       (Run.trace w), inr df)
  ∧ (0 ≤ missing ≤ rows - unique)%Z
  ∧ (unique ≤ rows)%Z.
Proof.
  intros Hwf Hp. cbv zeta. split; [by apply analyze_pmid_column_run|].
  pose proof (nunique_isnull_le pmid) as Hle.
  rewrite (Hwf _ _ Hp) in Hle. lia.
Qed.

(** An instance: the sample frame has one identifier in two rows. *)
Lemma pmid_report_witness :
  (0 ≤ 0 ≤ 2 - 1)%Z.
Proof.
  destruct (pmid_report frame_sample
              (Pandas.NumCol [Some 101%Z; Some 101%Z]) Run.start
              frame_sample_wf eq_refl) as (_ & Hd & _).
  exact Hd.
Defined.

Section ValueCounts.
Import Pandas.

(** X10. The table [value_counts] gives: one row for each distinct value
    present in the column and none for a missing value, each with the number
    of cells that hold the value, which is at least 1 and at most the length
    of the column, in descending order of count; [nunique] is the number of
    its rows. *)
Theorem value_counts_table (c : Pandas.column) :
  let table := Pandas.value_counts c in
  NoDup table.*1
  ∧ (∀ k, k ∈ table.*1 ↔ Some k ∈ Pandas.cells c)
  ∧ (∀ k n, (k, n) ∈ table →
            n = Spec.occurrences (Some k) (Pandas.cells c)
            ∧ 1 ≤ n ≤ length (Pandas.cells c))
  ∧ StronglySorted (λ a b, b.2 ≤ a.2) table
  ∧ Pandas.nunique c = length table.
Proof.
  cbv zeta. unfold Pandas.value_counts, Pandas.nunique.
  set (l := Pandas.present (Pandas.cells c)).
  assert (Hperm : Counter.sorted_desc (Counter.of_list l)
                  ≡ₚ Counter.of_list l) by apply sorted_desc_perm.
  assert (Hocc : ∀ k, Spec.occurrences k l
                      = Spec.occurrences (Some k) (Pandas.cells c)).
  { intros k. apply occurrences_present. }
  split_and!.
  - rewrite Hperm. apply NoDup_keys_of_list.
  - intros k. rewrite Hperm.
    change ((Counter.of_list l).*1) with (Counter.keys (Counter.of_list l)).
    rewrite elem_of_keys_of_list. apply elem_of_present.
  - intros k n Hin. rewrite Hperm in Hin.
    pose proof (of_list_entries l) as He. rewrite Forall_forall in He.
    destruct (He _ Hin) as [Hk Hn]. simpl in *.
    pose proof (of_list_positive l _ Hin) as Hpos. simpl in Hpos.
    rewrite Hocc in Hn. split_and!; [done|lia|].
    subst n. unfold Spec.occurrences. apply length_filter.
  - apply sorted_desc_descending.
  - by rewrite Hperm.
Qed.

End ValueCounts.

(** ** What the later functions need and what they leave alone *)

Section Yields.
Import Shared Pandas Run.

Lemma bind_inr_inv {A B} (m : M A) (k : A → M B) w w' b :
  (m ≫= k) w = (w', inr b) →
  ∃ w1 a, m w = (w1, inr a) ∧ k a w1 = (w', inr b).
Proof.
  unfold mbind, M_bind. destruct (m w) as [w1 [e|a]]; [done|].
  intros Hk. by exists w1, a.
Qed.

Lemma yields_ret {A} (Q : A → Prop) a : Q a → yields Q (mret a).
Proof. by intros Ha w w' a' [= _ <-]. Qed.

Lemma yields_bind {A B} (Q : B → Prop) (m : M A) (k : A → M B) :
  (∀ a, yields Q (k a)) → yields Q (m ≫= k).
Proof.
  intros Hk w w' b (w1 & a & _ & Hb)%bind_inr_inv. by eapply Hk.
Qed.

Lemma yields_bind_l {A B} (R : Prop) (m : M A) (k : A → M B) :
  yields (λ _, R) m → yields (λ _, R) (m ≫= k).
Proof.
  intros Hm w w' b (w1 & a & Ha & _)%bind_inr_inv. by eapply Hm.
Qed.

Lemma yields_getitem df k :
  yields (λ _, is_Some (columns df !! k)) (getitem df k).
Proof.
  intros w w' c. unfold getitem.
  destruct (columns df !! k); [by eauto|done].
Qed.

Lemma yields_call {A} (Q : A → Prop) f (body : M A) :
  yields Q body → yields Q (call f body).
Proof.
  intros Hb. unfold call. apply yields_bind. intros _.
  intros w w' a (w1 & a' & Ha & Hr)%bind_inr_inv.
  apply bind_inr_inv in Hr as (w2 & [] & _ & [= _ <-]). by eapply Hb.
Qed.

End Yields.

Create HintDb yields.

#[local] Hint Resolve yields_getitem : yields.
#[local] Hint Extern 1 (yields _ (mret _)) =>
  apply yields_ret; reflexivity : yields.
#[local] Hint Extern 2 (yields (λ _, _) (_ ≫= _)) =>
  apply yields_bind_l : yields.
#[local] Hint Extern 3 (yields _ (_ ≫= _)) =>
  apply yields_bind; intros ? : yields.

Ltac solve_yields := cbv zeta; simpl Run.for_each; eauto 90 with yields.

(** X11. [create_visualizations], [statistical_summary] and
    [create_summary_report] return only on a frame that has the four derived
    columns, which [analyze_text_columns] attaches; the charts and the
    summary report need [source] and [group] as well. *)
Theorem later_functions_need_derived (env : Run.Env)
    (df : Pandas.DataFrame) (section : string) :
  (∀ k, k ∈ Shared.derived_columns ++ ["source"; "group"] →
        yields (λ _, is_Some (Pandas.columns df !! k))
          (Shared.create_visualizations env df))
  ∧ (∀ k, k ∈ Shared.derived_columns →
          yields (λ _, is_Some (Pandas.columns df !! k))
            (Shared.statistical_summary section df))
  ∧ (∀ k, k ∈ Shared.derived_columns ++ ["pmid"; "source"; "group"] →
          yields (λ _, is_Some (Pandas.columns df !! k))
            (eda_simple.create_summary_report df)).
Proof.
  unfold Shared.derived_columns. split_and!; intros k Hk; simpl in Hk;
    rewrite !elem_of_cons in Hk;
    repeat (destruct Hk as [->|Hk]); try (by apply elem_of_nil in Hk).
  all: unfold Shared.create_visualizations, Shared.statistical_summary,
         Shared.numerical_cols, eda_simple.create_summary_report;
       solve_yields.
Qed.

(** An instance: on the sample frame as loaded, without derived columns,
    the statistical summary does not return. *)
Lemma later_functions_need_derived_witness :
  (Shared.statistical_summary "12. STATISTICAL SUMMARY" frame_sample
     Run.start).2 ≠ inr frame_sample.
Proof.
  destruct (Shared.statistical_summary "12. STATISTICAL SUMMARY" frame_sample
              Run.start) as [w' r] eqn:Hrun.
  simpl. intros ->.
  destruct (later_functions_need_derived (env_of frame_sample) frame_sample
              "12. STATISTICAL SUMMARY") as (_ & Hs & _).
  assert (Hin : "title_length" ∈ Shared.derived_columns) by compute_done.
  destruct (Hs "title_length" Hin Run.start w' frame_sample Hrun) as [c Hc].
  discriminate Hc.
Defined.

(** ** Runs that complete *)

Section Returns.
Import Shared Pandas Run.

Lemma returns_ret {A} (Q : A → Prop) a : Q a → returns Q (mret a).
Proof. intros Ha w. by exists w, a. Qed.

Lemma returns_bind {A B} (P : A → Prop) (Q : B → Prop) (m : M A)
    (k : A → M B) :
  returns P m → (∀ a, P a → returns Q (k a)) → returns Q (m ≫= k).
Proof.
  intros Hm Hk w. destruct (Hm w) as (w1 & a & Ha & Pa).
  destruct (Hk a Pa w1) as (w2 & b & Hb & Qb).
  exists w2, b. split; [|done]. unfold mbind, M_bind. by rewrite Ha.
Qed.

Lemma returns_print_bind {B} (Q : B → Prop) o (k : () → M B) :
  returns Q (k ()) → returns Q (print o ≫= k).
Proof.
  intros Hk. apply (returns_bind (λ _, True)); [|by intros []].
  intros w. by eexists _, ().
Qed.

Lemma returns_print o : returns (λ _, True) (print o).
Proof. intros w. by eexists _, (). Qed.

Lemma returns_getitem_bind {B} (Q : B → Prop) df key c (f : column → M B) :
  columns df !! key = Some c → returns Q (f c) →
  returns Q (getitem df key ≫= f).
Proof.
  intros Hc Hf. apply (returns_bind (eq c)); [|by intros ? <-].
  intros w. exists w, c. unfold getitem. by rewrite Hc.
Qed.

Lemma returns_numeric_bind {B} (Q : B → Prop) l
    (f : list (option Z) → M B) :
  returns Q (f l) → returns Q (numeric (NumCol l) ≫= f).
Proof.
  intros Hf. apply (returns_bind (eq l)); [|by intros ? <-].
  intros w. by exists w, l.
Qed.

Lemma returns_library_bind {B} (Q : B → Prop) env site (k : () → M B) :
  extern env site = None → returns Q (k ()) →
  returns Q (library env site ≫= k).
Proof.
  intros He Hk. apply (returns_bind (λ _, True)); [|by intros []].
  intros w. exists w, (). unfold library. by rewrite He.
Qed.

Lemma returns_for_each_print (l : list (string * nat)) :
  returns (λ _, True) (for_each l (λ wc, print (Entry wc.1 wc.2))).
Proof.
  induction l as [|x l IH]; [by apply returns_ret|].
  simpl. by apply returns_print_bind.
Qed.

Lemma returns_for_each_missing (m : gmap string column) :
  returns (λ _, True)
    (for_each (map_to_list m) (λ kc, print (Missing kc.1 (isnull_sum kc.2)))).
Proof.
  induction (map_to_list m) as [|x l IH]; [by apply returns_ret|].
  simpl. by apply returns_print_bind.
Qed.

Lemma returns_call {A} (Q : A → Prop) f (body : M A) :
  returns Q body → returns Q (call f body).
Proof.
  intros Hb. unfold call, log.
  apply (returns_bind (λ _, True)); [by intros w; eexists _, ()|].
  intros _ _. apply (returns_bind Q); [done|]. intros a Qa.
  apply (returns_bind (λ _, True)); [by intros w; eexists _, ()|].
  intros _ _. by apply returns_ret.
Qed.

(** The breakdown loops return in a frame whose columns have the length of
    the index. *)
Lemma returns_breakdown df key c rows :
  wf df → columns df !! key = Some c →
  (value_counts c = [] → rows = []) →
  returns (λ _, True)
    (for_each rows
       (λ kc, p ← eda_simple.percentage kc.2 (nrows df);
              print (Share kc.1 kc.2 p))).
Proof.
  intros Hwf Hc Hrows. destruct (nrows df) as [|n] eqn:Hn.
  - rewrite Hrows; [by apply returns_ret|]. by eapply value_counts_empty.
  - induction rows as [|kc rows IH]; [by apply returns_ret|].
    simpl. apply (returns_bind (λ _, True)).
    + apply (returns_bind (λ _, True)); [by intros w; eexists _, _|].
      intros p _ w. by eexists _, ().
    + intros _ _. apply IH. intros Hv. by specialize (Hrows Hv).
Qed.

Lemma returns_load env df :
  read_csv env = inr df → returns (eq df) (load_and_examine_data env).
Proof.
  intros Hcsv. unfold load_and_examine_data. rewrite Hcsv.
  do 2 apply returns_print_bind.
  apply (returns_bind (eq df)); [by intros w; exists w, df|].
  intros ? <-. repeat apply returns_print_bind.
  apply (returns_bind (λ _, True)); [apply returns_for_each_missing|].
  intros _ _. repeat apply returns_print_bind. by apply returns_ret.
Qed.

End Returns.

Ltac returns_step :=
  first
    [ apply returns_print_bind
    | eapply returns_getitem_bind; [eassumption|]
    | apply returns_numeric_bind
    | apply returns_library_bind; [done|]
    | apply returns_ret; reflexivity
    | apply returns_print ].

Section Stages2.
Import Shared Pandas Run.
Variable d : DataFrame.
Variables pmid title abstract source group manual : column.
Variables tl al twc awc : list (option Z).
Hypothesis Hwf : wf d.
Hypothesis Hpmid : columns d !! "pmid" = Some pmid.
Hypothesis Htitle : columns d !! "title" = Some title.
Hypothesis Habstract : columns d !! "abstract" = Some abstract.
Hypothesis Hsource : columns d !! "source" = Some source.
Hypothesis Hgroup : columns d !! "group" = Some group.
Hypothesis Hmanual : columns d !! "Manual" = Some manual.
Hypothesis Htl : columns d !! "title_length" = Some (NumCol tl).
Hypothesis Hal : columns d !! "abstract_length" = Some (NumCol al).
Hypothesis Htwc : columns d !! "title_word_count" = Some (NumCol twc).
Hypothesis Hawc : columns d !! "abstract_word_count" = Some (NumCol awc).

Lemma returns_categorical : returns (eq d) (analyze_categorical_columns d).
Proof. unfold analyze_categorical_columns. cbv zeta. repeat returns_step. Qed.

Lemma returns_pmid : returns (eq d) (analyze_pmid_column d).
Proof. unfold analyze_pmid_column. cbv zeta. repeat returns_step. Qed.

Lemma returns_visualizations env :
  (∀ site, extern env site = None) →
  returns (eq d) (create_visualizations env d).
Proof.
  intros Hext. unfold create_visualizations. cbv zeta. repeat returns_step.
Qed.

Lemma returns_corpus_bind {B} (Q : B → Prop) (k : string → M B) :
  (∀ all_text, returns Q (k all_text)) → returns Q (corpus d ≫= k).
Proof.
  intros Hk. apply (returns_bind (λ _, True)); [|by intros ? _].
  unfold corpus. repeat returns_step.
Qed.

Lemma returns_simple_text_analysis :
  returns (eq d) (eda_simple.text_analysis d).
Proof.
  unfold eda_simple.text_analysis, print_top. returns_step.
  apply returns_corpus_bind. intros all_text. repeat returns_step.
  apply (returns_bind (λ _, True)); [apply returns_for_each_print|].
  intros _ _. returns_step.
  apply (returns_bind (λ _, True)); [apply returns_for_each_print|].
  intros _ _. returns_step.
Qed.

Lemma returns_complete_text_analysis stop lemmatize :
  returns (eq d) (eda_complete_dataset.text_analysis stop lemmatize d).
Proof.
  unfold eda_complete_dataset.text_analysis, print_top. returns_step.
  apply returns_corpus_bind. intros all_text. repeat returns_step.
  apply (returns_bind (λ _, True)); [apply returns_for_each_print|].
  intros _ _. returns_step.
  apply (returns_bind (λ _, True)); [apply returns_for_each_print|].
  intros _ _. returns_step.
Qed.

Lemma returns_generate_wordcloud env :
  (∀ site, extern env site = None) →
  returns (eq d) (eda_complete_dataset.generate_wordcloud env d).
Proof.
  intros Hext. unfold eda_complete_dataset.generate_wordcloud. returns_step.
  apply returns_corpus_bind. intros all_text. repeat returns_step.
Qed.

Lemma returns_statistical_summary section :
  returns (eq d) (statistical_summary section d).
Proof.
  unfold statistical_summary, numerical_cols. simpl for_each.
  do 2 returns_step.
  apply (returns_bind (λ _, True)).
  { repeat (apply (returns_bind (λ _, True));
            [by repeat returns_step|intros _ _]).
    by apply returns_ret. }
  intros _ _. repeat returns_step.
Qed.

Lemma returns_create_summary_report :
  returns (eq d) (eda_simple.create_summary_report d).
Proof.
  unfold eda_simple.create_summary_report. cbv zeta. repeat returns_step.
  apply (returns_bind (λ _, True));
    [by apply (returns_breakdown d "source" source)|intros _ _].
  repeat returns_step.
  apply (returns_bind (λ _, True)); [|intros _ _].
  { apply (returns_breakdown d "group" group); [done..|]. by intros ->. }
  returns_step. simpl for_each. rewrite !lookup_fmap.
  rewrite Htitle, Habstract, Hsource, Hgroup, Hmanual. simpl.
  apply (returns_bind (λ _, True)); [|intros _ _; by apply returns_ret].
  repeat returns_step.
Qed.

End Stages2.



(** ** Runs that fail *)

Section Failing.
Import Shared Pandas Run.

Lemma bind_inl {A B} (m : M A) (k : A → M B) w w1 e :
  m w = (w1, inl e) → (m ≫= k) w = (w1, inl e).
Proof. intros Hm. unfold mbind, M_bind. by rewrite Hm. Qed.

Lemma bind_inr {A B} (m : M A) (k : A → M B) w w1 a :
  m w = (w1, inr a) → (m ≫= k) w = k a w1.
Proof. intros Hm. unfold mbind, M_bind. by rewrite Hm. Qed.

Lemma call_inr {A} f (body : M A) w w1 a :
  body (World (stdout w) (trace w ++ [Enter f])) = (w1, inr a) →
  call f body w = (World (stdout w1) (trace w1 ++ [Exit f]), inr a).
Proof.
  intros Hb. unfold call, log. cbv [mbind M_bind mret M_ret].
  by rewrite Hb.
Qed.

Lemma call_inl {A} f (body : M A) w w1 e :
  body (World (stdout w) (trace w ++ [Enter f])) = (w1, inl e) →
  call f body w = (w1, inl e).
Proof.
  intros Hb. unfold call, log. cbv [mbind M_bind mret M_ret].
  by rewrite Hb.
Qed.

(** The handler of [main] writes the failure after what was printed. *)
Lemma try_except_inl body w w1 e :
  body w = (w1, inl e) →
  try_except body
    (λ e, print (Failure e);; print (Unmodelled "traceback")) w
  = (World (stdout w1 ++ [Failure e; Unmodelled "traceback"]) (trace w1),
     inr ()).
Proof.
  intros Hb. unfold try_except. rewrite Hb.
  cbv [mbind M_bind mret M_ret print stdout trace].
  by rewrite <- (assoc_L (++)).
Qed.

Lemma load_raises env e w :
  read_csv env = inl e →
  load_and_examine_data env w
  = (World
       (stdout w ++
        [Line "EXPLORATORY DATA ANALYSIS";
         Line "Dataset: complete_dataset_standardized.csv"])
       (trace w), inl e).
Proof.
  intros Hcsv. unfold load_and_examine_data, lift. rewrite Hcsv.
  cbv [mbind M_bind mret M_ret print stdout trace].
  by rewrite <- (assoc_L (++)).
Qed.

(** The run up to the call that raises in [analyze_text_columns]. *)
Lemma stops_at_text_columns {B} env df e (k : DataFrame → M B) w :
  read_csv env = inr df →
  (∀ w0, (analyze_text_columns df w0).2 = inl e) →
  ∃ w1,
    (df ← call Load (load_and_examine_data env);
     df ← call TextColumns (analyze_text_columns df); k df) w
    = (w1, inl e)
    ∧ trace w1 = trace w ++ [Enter Load; Exit Load; Enter TextColumns].
Proof.
  intros Hcsv Hraise.
  set (w0 := World (stdout w) (trace w ++ [Enter Load])).
  destruct (returns_load env df Hcsv w0) as (w1 & a & Hload & <-).
  pose proof (quiet_load env w0) as Hq. rewrite Hload in Hq. simpl in Hq.
  set (w2 := World (stdout w1) (trace w1 ++ [Exit Load])).
  set (w3 := World (stdout w2) (trace w2 ++ [Enter TextColumns])).
  pose proof (Hraise w3) as Hr.
  pose proof (quiet_analyze_text_columns df w3) as Hq3.
  destruct (analyze_text_columns df w3) as [w4 r] eqn:Hatc.
  simpl in Hr, Hq3. subst r.
  exists w4. split.
  - rewrite (bind_inr _ _ w w2 df); [|by apply call_inr].
    apply bind_inl. by apply call_inl.
  - rewrite Hq3. simpl. rewrite Hq. simpl. by rewrite <- !(assoc_L (++)).
Qed.

Lemma text_columns_no_title df w :
  columns df !! "title" = None →
  (analyze_text_columns df w).2 = inl (KeyError "title").
Proof.
  intros Ht. unfold analyze_text_columns, getitem.
  cbv [mbind M_bind mret M_ret print raise]. by rewrite Ht.
Qed.

Lemma text_columns_numeric_title df l w :
  columns df !! "title" = Some (NumCol l) →
  (analyze_text_columns df w).2 = inl (AttributeError str_accessor_message).
Proof.
  intros Ht. unfold analyze_text_columns, getitem, str.
  cbv [mbind M_bind mret M_ret print raise]. by rewrite Ht.
Qed.

(** [main] when [analyze_text_columns] raises. *)
Lemma main_stops_at_text_columns env df e (k : DataFrame → M ()) :
  read_csv env = inr df →
  (∀ w0, (analyze_text_columns df w0).2 = inl e) →
  let w :=
    (try_except
       (df ← call Load (load_and_examine_data env);
        df ← call TextColumns (analyze_text_columns df); k df)
       (λ e, print (Failure e);; print (Unmodelled "traceback")) start).1 in
  trace w = [Enter Load; Exit Load; Enter TextColumns]
  ∧ ∃ outs, stdout w = outs ++ [Failure e; Unmodelled "traceback"].
Proof.
  intros Hcsv Hraise. cbv zeta.
  destruct (stops_at_text_columns env df e k start Hcsv Hraise)
    as (w1 & Hrun & Htr).
  erewrite try_except_inl; [|exact Hrun]. simpl. split; [done|].
  by eexists.
Qed.

End Failing.

(** X13. When [pd.read_csv] raises, [main] prints the two banner lines,
    the error and the trace back, calls no other function and returns; so in
    either script. *)
Theorem loader_failure (env : Run.Env) (e : Run.exn) :
  Run.read_csv env = inl e →
  let outcome :=
    (Run.World
       [Run.Line "EXPLORATORY DATA ANALYSIS";
        Run.Line "Dataset: complete_dataset_standardized.csv";
        Run.Failure e; Run.Unmodelled "traceback"]
       [Run.Enter Run.Load], inr ()) in
  eda_simple.main env Run.start = outcome
  ∧ ∀ stop lemmatize,
      eda_complete_dataset.main stop lemmatize env Run.start = outcome.
Proof.
  intros Hcsv. cbv zeta. split; [|intros stop lemmatize].
  - unfold eda_simple.main, eda_simple.try_block.
    erewrite try_except_inl;
      [|apply bind_inl, call_inl; by rewrite (load_raises env e)].
    reflexivity.
  - unfold eda_complete_dataset.main, eda_complete_dataset.try_block.
    erewrite try_except_inl;
      [|apply bind_inl, call_inl; by rewrite (load_raises env e)].
    reflexivity.
Qed.

(** An instance: the file is not there. *)
Lemma loader_failure_witness :
  Run.trace
    (eda_simple.main
       {| Run.read_csv := inl (Run.LibraryError "FileNotFoundError");
          Run.extern := λ _, None |} Run.start).1
  = [Run.Enter Run.Load].
Proof.
  destruct (loader_failure
              {| Run.read_csv := inl (Run.LibraryError "FileNotFoundError");
                 Run.extern := λ _, None |}
              (Run.LibraryError "FileNotFoundError") eq_refl) as [-> _].
  reflexivity.
Defined.

(** X14. A file without a [title] column, or with a numeric one, loads: the
    failure surfaces in [analyze_text_columns], as a [KeyError] or an
    [AttributeError].  [main] reports it and stops: after
    [load_and_examine_data] it has entered [analyze_text_columns], which does
    not return, and no later function is called. *)
Theorem schema_failure (env : Run.Env) (df : Pandas.DataFrame) :
  Run.read_csv env = inr df →
  let stopped (e : Run.exn) (w : Run.world) :=
    Run.trace w
    = [Run.Enter Run.Load; Run.Exit Run.Load; Run.Enter Run.TextColumns]
    ∧ ∃ outs,
        Run.stdout w = outs ++ [Run.Failure e; Run.Unmodelled "traceback"] in
  (Pandas.columns df !! "title" = None →
   stopped (Run.KeyError "title") (eda_simple.main env Run.start).1
   ∧ ∀ stop lemmatize,
       stopped (Run.KeyError "title")
         (eda_complete_dataset.main stop lemmatize env Run.start).1)
  ∧ (∀ l, Pandas.columns df !! "title" = Some (Pandas.NumCol l) →
     stopped (Run.AttributeError str_accessor_message)
       (eda_simple.main env Run.start).1
     ∧ ∀ stop lemmatize,
         stopped (Run.AttributeError str_accessor_message)
           (eda_complete_dataset.main stop lemmatize env Run.start).1).
Proof.
  intros Hcsv. cbv zeta.
  assert (Hstop : ∀ e,
            (∀ w0, (Shared.analyze_text_columns df w0).2 = inl e) →
            (Run.trace (eda_simple.main env Run.start).1
             = [Run.Enter Run.Load; Run.Exit Run.Load;
                Run.Enter Run.TextColumns]
             ∧ ∃ outs,
                 Run.stdout (eda_simple.main env Run.start).1
                 = outs ++ [Run.Failure e; Run.Unmodelled "traceback"])
            ∧ ∀ stop lemmatize,
                Run.trace
                  (eda_complete_dataset.main stop lemmatize env Run.start).1
                = [Run.Enter Run.Load; Run.Exit Run.Load;
                   Run.Enter Run.TextColumns]
                ∧ ∃ outs,
                    Run.stdout
                      (eda_complete_dataset.main stop lemmatize env
                         Run.start).1
                    = outs ++ [Run.Failure e; Run.Unmodelled "traceback"]).
  { intros e Hraise. split; [|intros stop lemmatize].
    - by apply (main_stops_at_text_columns env df e).
    - by apply (main_stops_at_text_columns env df e). }
  split.
  - intros Ht. apply Hstop. intros w0. by apply text_columns_no_title.
  - intros l Ht. apply Hstop. intros w0.
    by eapply text_columns_numeric_title.
Qed.

(** An instance: the frame with a numeric title column. *)
Lemma schema_failure_witness :
  Run.trace (eda_simple.main (env_of frame_numeric_title) Run.start).1
  = [Run.Enter Run.Load; Run.Exit Run.Load; Run.Enter Run.TextColumns].
Proof.
  destruct (schema_failure (env_of frame_numeric_title) frame_numeric_title
              eq_refl) as [_ Hnum].
  destruct (Hnum [Some 2024%Z] eq_refl) as [[Htr _] _].
  exact Htr.
Defined.

(** ** What is printed *)

Section Printing.
Import Shared Pandas Run.

Lemma prints_ret {A} P (a : A) : prints P (mret a).
Proof. intros w. exists []. split; [by rewrite app_nil_r|done]. Qed.

Lemma prints_raise {A} P e : prints P (raise (A := A) e).
Proof. intros w. exists []. split; [by rewrite app_nil_r|done]. Qed.

Lemma prints_lift {A} P (r : exn + A) : prints P (lift r).
Proof. intros w. exists []. split; [by rewrite app_nil_r|done]. Qed.

Lemma prints_log P ev : prints P (log ev).
Proof. intros w. exists []. split; [by rewrite app_nil_r|done]. Qed.

Lemma prints_print (P : out → Prop) o : P o → prints P (print o).
Proof. intros Ho w. exists [o]. split; [done|]. by apply Forall_singleton. Qed.

Lemma prints_bind {A B} P (m : M A) (k : A → M B) :
  prints P m → (∀ a, prints P (k a)) → prints P (m ≫= k).
Proof.
  intros Hm Hk w. unfold mbind, M_bind.
  destruct (Hm w) as (o1 & H1 & HP1).
  destruct (m w) as [w1 [e|a]]; simpl in *; [by exists o1|].
  destruct (Hk a w1) as (o2 & H2 & HP2). exists (o1 ++ o2).
  split; [|by apply Forall_app].
  by rewrite H2, H1, (assoc_L (++)).
Qed.

Lemma prints_getitem_bind {B} P df k (f : column → M B) :
  (∀ c, columns df !! k = Some c → prints P (f c)) →
  prints P (getitem df k ≫= f).
Proof.
  intros Hf w. unfold mbind, M_bind, getitem.
  destruct (columns df !! k) as [c|] eqn:Hc; simpl; [by apply Hf|].
  exists []. split; [by rewrite app_nil_r|done].
Qed.

Lemma prints_getitem P df k : prints P (getitem df k).
Proof.
  unfold getitem. destruct (columns df !! k);
    [apply prints_ret|apply prints_raise].
Qed.

Lemma prints_str P c : prints P (str c).
Proof. destruct c; [apply prints_ret|apply prints_raise]. Qed.

Lemma prints_numeric P c : prints P (numeric c).
Proof.
  destruct c as [l|l]; [|apply prints_ret]. simpl.
  case_bool_decide; [apply prints_ret|apply prints_raise].
Qed.

Lemma prints_library P env site : prints P (library env site).
Proof.
  unfold library. destruct (extern env site);
    [apply prints_raise|apply prints_ret].
Qed.

Lemma prints_percentage P count n : prints P (eda_simple.percentage count n).
Proof. destruct n; [apply prints_raise|apply prints_ret]. Qed.

Lemma prints_for_each {A} P (l : list A) (body : A → M ()) :
  (∀ x, x ∈ l → prints P (body x)) → prints P (for_each l body).
Proof.
  intros Hbody. induction l as [|x l IH]; [apply prints_ret|].
  simpl. apply prints_bind; [apply Hbody; left|].
  intros _. apply IH. intros y Hy. apply Hbody. by right.
Qed.

Lemma prints_call {A} P f (body : M A) : prints P body → prints P (call f body).
Proof.
  intros Hb. unfold call.
  apply prints_bind; [apply prints_log|intros _].
  apply prints_bind; [done|intros a].
  apply prints_bind; [apply prints_log|intros _]. apply prints_ret.
Qed.

End Printing.

Create HintDb prints.

#[local] Hint Resolve prints_ret prints_raise prints_lift prints_getitem
  prints_str prints_numeric prints_library prints_percentage : prints.
#[local] Hint Extern 1 (prints _ (Run.print _)) =>
  apply prints_print; simpl; first [exact I|discriminate|assumption]
  : prints.
#[local] Hint Extern 2 (prints _ (_ ≫= _)) =>
  apply prints_bind; [|intros ?] : prints.
#[local] Hint Extern 2 (prints _ (Run.for_each _ _)) =>
  apply prints_for_each; intros ? ? : prints.
#[local] Hint Extern 3 (prints _ (match ?x with _ => _ end)) =>
  destruct x : prints.

Ltac solve_prints := cbv zeta; eauto 90 with prints.

Section Ordinary.
Import Shared Pandas Run.

Lemma ordinary_load env : prints ordinary (load_and_examine_data env).
Proof. unfold load_and_examine_data. solve_prints. Qed.

Lemma ordinary_analyze_text_columns df :
  prints ordinary (analyze_text_columns df).
Proof. unfold analyze_text_columns. solve_prints. Qed.

Lemma ordinary_analyze_categorical_columns df :
  prints ordinary (analyze_categorical_columns df).
Proof. unfold analyze_categorical_columns. solve_prints. Qed.

Lemma ordinary_analyze_pmid_column df :
  prints ordinary (analyze_pmid_column df).
Proof. unfold analyze_pmid_column. solve_prints. Qed.

Lemma ordinary_create_visualizations env df :
  prints ordinary (create_visualizations env df).
Proof. unfold create_visualizations. solve_prints. Qed.

Lemma ordinary_corpus df : prints ordinary (corpus df).
Proof. unfold corpus. solve_prints. Qed.

Lemma ordinary_print_top c : prints ordinary (print_top c).
Proof. unfold print_top. solve_prints. Qed.

Lemma ordinary_statistical_summary section df :
  section ≠ "EDA COMPLETED SUCCESSFULLY!" →
  prints ordinary (statistical_summary section df).
Proof. intros Hsection. unfold statistical_summary. solve_prints. Qed.

Lemma ordinary_simple_text_analysis df :
  prints ordinary (eda_simple.text_analysis df).
Proof.
  unfold eda_simple.text_analysis.
  pose proof ordinary_corpus. pose proof ordinary_print_top. solve_prints.
Qed.

Lemma ordinary_create_summary_report df :
  prints ordinary (eda_simple.create_summary_report df).
Proof. unfold eda_simple.create_summary_report. solve_prints. Qed.

Lemma ordinary_complete_text_analysis stop lemmatize df :
  prints ordinary (eda_complete_dataset.text_analysis stop lemmatize df).
Proof.
  unfold eda_complete_dataset.text_analysis.
  pose proof ordinary_corpus. pose proof ordinary_print_top. solve_prints.
Qed.

Lemma ordinary_generate_wordcloud env df :
  prints ordinary (eda_complete_dataset.generate_wordcloud env df).
Proof.
  unfold eda_complete_dataset.generate_wordcloud.
  pose proof ordinary_corpus. solve_prints.
Qed.

Lemma concludes_bind {A} (m : M A) (k : A → M ()) :
  prints ordinary m → (∀ a, concludes (k a)) → concludes (m ≫= k).
Proof.
  intros Hm Hk w. unfold mbind, M_bind.
  destruct (Hm w) as (o1 & H1 & HP1).
  destruct (m w) as [w1 [e|a]]; simpl in *; [by exists o1|].
  destruct (Hk a w1) as (o2 & H2 & HP2). exists (o1 ++ o2).
  split; [by rewrite H2, H1, (assoc_L (++))|].
  destruct (k a w1).2 as [e|u]; [by apply Forall_app|].
  destruct HP2 as (pre & post & -> & Hpre & Hpost).
  exists (o1 ++ pre), post. split_and!; [|by apply Forall_app|done].
  by rewrite (assoc_L (++)).
Qed.

Lemma concludes_simple_try_block env : concludes (eda_simple.try_block env).
Proof.
  unfold eda_simple.try_block.
  apply concludes_bind; [apply prints_call, ordinary_load|intros ?].
  apply concludes_bind;
    [apply prints_call, ordinary_analyze_text_columns|intros ?].
  apply concludes_bind;
    [apply prints_call, ordinary_analyze_categorical_columns|intros ?].
  apply concludes_bind;
    [apply prints_call, ordinary_analyze_pmid_column|intros ?].
  apply concludes_bind;
    [apply prints_call, ordinary_create_visualizations|intros ?].
  apply concludes_bind;
    [apply prints_call, ordinary_simple_text_analysis|intros ?].
  apply concludes_bind;
    [by apply prints_call, ordinary_statistical_summary|intros ?].
  apply concludes_bind;
    [apply prints_call, ordinary_create_summary_report|intros ?].
  intros w.
  exists [Line "EDA COMPLETED SUCCESSFULLY!"; Line "Generated files:";
          Line "- eda_visualizations.png"].
  split; [simpl; by rewrite <- !(assoc_L (++))|].
  exists [], [Line "Generated files:"; Line "- eda_visualizations.png"].
  split_and!; [done|done|]. by repeat constructor.
Qed.

Lemma concludes_complete_try_block stop lemmatize env :
  concludes (eda_complete_dataset.try_block stop lemmatize env).
Proof.
  unfold eda_complete_dataset.try_block.
  apply concludes_bind; [apply prints_call, ordinary_load|intros ?].
  apply concludes_bind;
    [apply prints_call, ordinary_analyze_text_columns|intros ?].
  apply concludes_bind;
    [apply prints_call, ordinary_analyze_categorical_columns|intros ?].
  apply concludes_bind;
    [apply prints_call, ordinary_analyze_pmid_column|intros ?].
  apply concludes_bind;
    [apply prints_call, ordinary_create_visualizations|intros ?].
  apply concludes_bind;
    [apply prints_call, ordinary_complete_text_analysis|intros ?].
  apply concludes_bind;
    [apply prints_call, ordinary_generate_wordcloud|intros ?].
  apply concludes_bind;
    [by apply prints_call, ordinary_statistical_summary|intros ?].
  intros w.
  exists [Line "EDA COMPLETED SUCCESSFULLY!"; Line "Generated files:";
          Line "- eda_visualizations.png"; Line "- wordcloud.png"].
  split; [simpl; by rewrite <- !(assoc_L (++))|].
  exists [], [Line "Generated files:"; Line "- eda_visualizations.png";
              Line "- wordcloud.png"].
  split_and!; [done|done|]. by repeat constructor.
Qed.

(** What [main] makes of a [try] block that concludes. *)
Lemma try_except_report (body : M ()) :
  concludes body →
  let run := body start in
  let result :=
    try_except body
      (λ e, print (Failure e);; print (Unmodelled "traceback")) start in
  result.2 = inr ()
  ∧ (Line "EDA COMPLETED SUCCESSFULLY!" ∈ stdout result.1 ↔ run.2 = inr ())
  ∧ (∀ e, Failure e ∈ stdout result.1 ↔ run.2 = inl e).
Proof.
  intros Hc. cbv zeta. destruct (Hc start) as (outs & Hout & Hres).
  unfold try_except. destruct (body start) as [w1 [e|[]]]; simpl in *.
  - cbv [mbind M_bind print]. simpl. rewrite Hout.
    rewrite Forall_forall in Hres. split_and!; [done|split; [|done]|].
    + rewrite !elem_of_app, !list_elem_of_singleton.
      intros [[Hin|?]|?]; [|done..]. by destruct (Hres _ Hin).
    + intros e'. rewrite !elem_of_app, !list_elem_of_singleton. split.
      * intros [[Hin|[= ->]]|?]; [|done..]. by destruct (Hres _ Hin).
      * intros [= ->]. left. by right.
  - destruct Hres as (pre & post & -> & Hpre & Hpost). rewrite Hout.
    rewrite Forall_forall in Hpre, Hpost.
    split_and!; [done|split; [done|intros _]|].
    + rewrite elem_of_app, elem_of_cons. right. by left.
    + intros e'. split; [|done].
      rewrite elem_of_app, elem_of_cons.
      intros [Hin|[?|Hin]]; [|done|].
      * by destruct (Hpre _ Hin).
      * by destruct (Hpost _ Hin).
Qed.

(** A row of [value_counts] counts at least one cell and at most all. *)
Lemma value_counts_entry c (kc : scalar * nat) :
  kc ∈ value_counts c → 0 < kc.2 ≤ length (cells c).
Proof.
  unfold value_counts. rewrite sorted_desc_perm. intros Hin.
  pose proof (of_list_entries (present (cells c))) as He.
  rewrite Forall_forall in He. destruct (He _ Hin) as [_ Hn].
  pose proof (of_list_positive _ _ Hin) as Hpos.
  split; [done|]. rewrite Hn, occurrences_present.
  unfold Spec.occurrences. apply length_filter.
Qed.

Lemma percentage_in_range (count n : nat) p w w' :
  0 < count ≤ n →
  eda_simple.percentage count n w = (w', inr p) → (0 < p)%Q ∧ (p <= 100)%Q.
Proof.
  intros [Hpos Hle]. destruct n as [|n]; [done|]. simpl. intros [= _ <-].
  unfold Qlt, Qle, Qmult. simpl.
  rewrite Pos.mul_1_r, Z.mul_1_r.
  rewrite <- (positive_nat_Z (Pos.of_nat (S n))), Nat2Pos.id by done.
  lia.
Qed.

(** The loops of the two breakdowns print percentages in range. *)
Lemma shares_breakdown df k c rows :
  wf df → columns df !! k = Some c →
  (∀ kc, kc ∈ rows → kc ∈ value_counts c) →
  prints share_in_range
    (for_each rows
       (λ kc, p ← eda_simple.percentage kc.2 (nrows df);
              print (Share kc.1 kc.2 p))).
Proof.
  intros Hwf Hc Hrows. apply prints_for_each. intros kc Hin w.
  pose proof (value_counts_entry c kc (Hrows _ Hin)) as Hkc.
  rewrite (Hwf _ _ Hc) in Hkc.
  unfold mbind, M_bind.
  destruct (eda_simple.percentage kc.2 (nrows df) w) as [w1 [e|p]] eqn:Hp.
  - pose proof (prints_percentage share_in_range kc.2 (nrows df) w) as Hq.
    by rewrite Hp in Hq.
  - pose proof (percentage_in_range _ _ _ _ _ Hkc Hp) as Hrange.
    pose proof (prints_percentage share_in_range kc.2 (nrows df) w)
      as (o1 & H1 & HP1).
    rewrite Hp in H1. simpl in H1.
    exists (o1 ++ [Share kc.1 kc.2 p]). simpl.
    split; [by rewrite H1, (assoc_L (++))|].
    apply Forall_app. split; [done|]. by apply Forall_singleton.
Qed.

End Ordinary.



(** X16. [main] returns whatever happens in its [try] block.  It prints
    the line of success exactly when the block ran to its end, and the
    report of the exception [e] exactly when the block raised [e]; no
    function it calls prints either. *)
Theorem outcome_report (env : Run.Env) :
  let report (try_block main : Run.M ()) :=
    (main Run.start).2 = inr ()
    ∧ (Run.Line "EDA COMPLETED SUCCESSFULLY!" ∈ Run.stdout (main Run.start).1
       ↔ (try_block Run.start).2 = inr ())
    ∧ (∀ e, Run.Failure e ∈ Run.stdout (main Run.start).1
            ↔ (try_block Run.start).2 = inl e) in
  report (eda_simple.try_block env) (eda_simple.main env)
  ∧ ∀ stop lemmatize,
      report (eda_complete_dataset.try_block stop lemmatize env)
        (eda_complete_dataset.main stop lemmatize env).
Proof.
  cbv zeta. split; [|intros stop lemmatize].
  - apply (try_except_report (eda_simple.try_block env)).
    apply concludes_simple_try_block.
  - apply (try_except_report
             (eda_complete_dataset.try_block stop lemmatize env)).
    apply concludes_complete_try_block.
Qed.
